(** * SuiteStack: the RBAC permission middleware (src/PermissionMiddleware.ts)

    A shallow embedding of the permission engine: the rule table, the three
    scope predicates, [checkPermission], the filter builder, the TTL cache
    and the denial audit path, followed by the properties of the
    specification that concern them.

    Conventions of the embedding.
    - TypeScript string enums ([ResourceType], [ActionType], [Region],
      [PropertyType]) are inductive types together with the string each
      member denotes at run time.
    - [UserRole] is kept as the run-time string: the rule table and every
      role test compare it with [===] against a literal, so the embedding
      also covers role strings outside the four declared ones.
    - [metadata?: Record<string, any>] is an optional finite map from
      property names to JavaScript values.
    - The [Map] behind [PermissionCache] is a [gmap] from key strings to
      entries; [Date.now()] is an explicit argument of the operation that
      reads it.
    - Strings are sequences of characters with concatenation and prefix
      test; the encoding of a character plays no role in what follows. *)

From Stdlib Require Import ZArith Bool List Ascii String.
From stdpp Require Import gmap strings list fin_maps.
From stdpp Require Import pretty.

Local Open Scope Z_scope.

(* ------------------------------------------------------------------------- *)
(** ** JavaScript values that can sit behind [any] *)
(* ------------------------------------------------------------------------- *)

(** Numbers are carried by their integer value, with [NaN] apart; objects by
    their reference.  The code only tests such values for truthiness and
    looks them up in arrays of strings. *)
Inductive JsVal : Type :=
| JUndefined
| JNull
| JBool (b : bool)
| JNum (n : Z)
| JNaN
| JStr (s : string)
| JObj (ref : nat).

(** [ToBoolean]: what [!v] and [v && ...] look at. *)
Definition truthy (v : JsVal) : bool :=
  match v with
  | JUndefined | JNull | JNaN => false
  | JBool b => b
  | JNum n => negb (n =? 0)
  | JStr s => negb (String.eqb s "")
  | JObj _ => true
  end.

(** [SameValueZero], the comparison of [Array.prototype.includes]. *)
Definition sameValueZero (a b : JsVal) : bool :=
  match a, b with
  | JUndefined, JUndefined => true
  | JNull, JNull => true
  | JBool x, JBool y => Bool.eqb x y
  | JNum x, JNum y => x =? y
  | JNaN, JNaN => true
  | JStr x, JStr y => String.eqb x y
  | JObj x, JObj y => Nat.eqb x y
  | _, _ => false
  end.

(** [arr.includes(v)] for an array whose elements are given as values. *)
Definition includesVal (arr : list JsVal) (v : JsVal) : bool :=
  existsb (fun x => sameValueZero x v) arr.

(** [arr.includes(s)] for an array of strings and a string argument. *)
Definition includes (arr : list string) (s : string) : bool :=
  existsb (fun x => String.eqb x s) arr.

(** [s.startsWith(p)]. *)
Definition startsWith (s p : string) : bool := String.prefix p s.

(** [s.includes(c)] for a single character [c]. *)
Fixpoint containsChar (c : ascii) (s : string) : bool :=
  match s with
  | EmptyString => false
  | String x rest => if Ascii.eqb x c then true else containsChar c rest
  end.

(* ------------------------------------------------------------------------- *)
(** ** Enumerations *)
(* ------------------------------------------------------------------------- *)

Inductive ResourceType : Type :=
| BUILDING | SUITE | TENANT | MARKET | ANALYTICS | EXPORT | ADMIN.

Inductive ActionType : Type :=
| READ | CREATE | UPDATE | DELETE | EXPORT_ACTION | SHARE.

Inductive Region : Type :=
| SOUTH_FLORIDA | CENTRAL_FLORIDA | CAROLINAS | ALL_REGIONS.

Inductive PropertyType : Type :=
| OFFICE | INDUSTRIAL | ALL_TYPES.

Definition ResourceType_str (r : ResourceType) : string :=
  match r with
  | BUILDING => "building" | SUITE => "suite" | TENANT => "tenant"
  | MARKET => "market" | ANALYTICS => "analytics" | EXPORT => "export"
  | ADMIN => "admin"
  end.

Definition ActionType_str (a : ActionType) : string :=
  match a with
  | READ => "read" | CREATE => "create" | UPDATE => "update"
  | DELETE => "delete" | EXPORT_ACTION => "export" | SHARE => "share"
  end.

Definition Region_str (r : Region) : string :=
  match r with
  | SOUTH_FLORIDA => "south_florida" | CENTRAL_FLORIDA => "central_florida"
  | CAROLINAS => "carolinas" | ALL_REGIONS => "all_regions"
  end.

Definition PropertyType_str (p : PropertyType) : string :=
  match p with
  | OFFICE => "office" | INDUSTRIAL => "industrial" | ALL_TYPES => "all_types"
  end.

#[global] Instance ResourceType_eq_dec : EqDecision ResourceType.
Proof. solve_decision. Defined.
#[global] Instance ActionType_eq_dec : EqDecision ActionType.
Proof. solve_decision. Defined.
#[global] Instance Region_eq_dec : EqDecision Region.
Proof. solve_decision. Defined.
#[global] Instance PropertyType_eq_dec : EqDecision PropertyType.
Proof. solve_decision. Defined.

(** [===] on two members of one string enum: equality of their strings. *)
Definition ResourceType_eqb (a b : ResourceType) : bool :=
  String.eqb (ResourceType_str a) (ResourceType_str b).
Definition ActionType_eqb (a b : ActionType) : bool :=
  String.eqb (ActionType_str a) (ActionType_str b).

(** A role, as the string it is at run time (["admin"], ["researcher"],
    ["broker"], ["viewer"] are the declared ones). *)
Definition UserRole : Type := string.

(* ------------------------------------------------------------------------- *)
(** ** Records *)
(* ------------------------------------------------------------------------- *)

Module SessionUser.
Record t : Type := mk {
  id : string;
  email : string;
  role : UserRole;
  regions : list Region;
  propertyTypes : list PropertyType;
  assignedBuildings : list string;
  universalAccess : bool;
  lastActivity : Z
}.
End SessionUser.

Abbreviation Metadata := (gmap string JsVal).

Module PermissionContext.
Record t : Type := mk {
  user : SessionUser.t;
  resource : ResourceType;
  action : ActionType;
  resourceId : option string;
  metadata : option Metadata
}.
End PermissionContext.

Module PermissionRule.
Record t : Type := mk {
  role : UserRole;
  resource : ResourceType;
  actions : list ActionType;
  condition : option (PermissionContext.t -> bool)
}.
End PermissionRule.

(** [metadata?.name]: [undefined] when the record or the property is missing. *)
Definition metadataProp (metadata : option Metadata) (name : string) : JsVal :=
  match metadata with
  | None => JUndefined
  | Some md => default JUndefined (md !! name)
  end.

(** [user.regions.includes(v)] and [user.propertyTypes.includes(v)]: the
    array holds the enum members' strings. *)
Definition regionsInclude (regions : list Region) (v : JsVal) : bool :=
  includesVal (map (fun r => JStr (Region_str r)) regions) v.

Definition propertyTypesInclude (pts : list PropertyType) (v : JsVal) : bool :=
  includesVal (map (fun p => JStr (PropertyType_str p)) pts) v.

(** [rule.actions.includes(action)]. *)
Definition actionsInclude (actions : list ActionType) (a : ActionType) : bool :=
  existsb (fun x => ActionType_eqb x a) actions.

(* ------------------------------------------------------------------------- *)
(** ** Permission checking functions *)
(* ------------------------------------------------------------------------- *)

Definition hasRegionAccess (context : PermissionContext.t) : bool :=
  let user := PermissionContext.user context in
  let metadata := PermissionContext.metadata context in
  if SessionUser.universalAccess user
     || regionsInclude (SessionUser.regions user) (JStr "all_regions")
  then true
  else if negb (truthy (metadataProp metadata "regionId")) then false
  else regionsInclude (SessionUser.regions user) (metadataProp metadata "regionId").

Definition hasPropertyTypeAccess (context : PermissionContext.t) : bool :=
  let user := PermissionContext.user context in
  let metadata := PermissionContext.metadata context in
  if SessionUser.universalAccess user
     || propertyTypesInclude (SessionUser.propertyTypes user) (JStr "all_types")
  then true
  else if negb (truthy (metadataProp metadata "propertyType")) then false
  else propertyTypesInclude (SessionUser.propertyTypes user)
         (metadataProp metadata "propertyType").

(** [resourceId && ...]: an optional string is truthy when present and
    non-empty. *)
Definition truthyId (resourceId : option string) : bool :=
  match resourceId with
  | None => false
  | Some s => truthy (JStr s)
  end.

Definition hasBuildingAccess (context : PermissionContext.t) : bool :=
  let user := PermissionContext.user context in
  let resourceId := PermissionContext.resourceId context in
  if String.eqb (SessionUser.role user) "admin" || SessionUser.universalAccess user
  then true
  else if negb (hasRegionAccess context) || negb (hasPropertyTypeAccess context)
  then false
  else if truthyId resourceId
          && (0 <? Z.of_nat (length (SessionUser.assignedBuildings user)))
  then includes (SessionUser.assignedBuildings user) (default "" resourceId)
  else true.

(** The rule table, in the order of the source. *)
Definition PERMISSION_RULES : list PermissionRule.t :=
  [ (* Admin *)
    PermissionRule.mk "admin" BUILDING
      [READ; CREATE; UPDATE; DELETE; EXPORT_ACTION; SHARE] None;
    PermissionRule.mk "admin" TENANT [READ; CREATE; UPDATE; DELETE] None;
    PermissionRule.mk "admin" ADMIN [READ; CREATE; UPDATE; DELETE] None;
    (* Researcher *)
    PermissionRule.mk "researcher" BUILDING [READ; UPDATE; EXPORT_ACTION]
      (Some (fun ctx => hasRegionAccess ctx && hasPropertyTypeAccess ctx));
    PermissionRule.mk "researcher" SUITE [READ; CREATE; UPDATE]
      (Some (fun ctx => hasBuildingAccess ctx));
    PermissionRule.mk "researcher" TENANT [READ; CREATE; UPDATE] None;
    (* Broker *)
    PermissionRule.mk "broker" BUILDING [READ; EXPORT_ACTION]
      (Some (fun ctx => hasBuildingAccess ctx));
    PermissionRule.mk "broker" SUITE [READ]
      (Some (fun ctx => hasBuildingAccess ctx));
    PermissionRule.mk "broker" TENANT [READ] None;
    (* Viewer *)
    PermissionRule.mk "viewer" BUILDING [READ]
      (Some (fun ctx => hasBuildingAccess ctx));
    PermissionRule.mk "viewer" SUITE [READ]
      (Some (fun ctx => hasBuildingAccess ctx)) ].

(** The [for ... of] loop of [checkPermission] over the applicable rules. *)
Fixpoint checkRules (rules : list PermissionRule.t) (context : PermissionContext.t)
  : bool :=
  match rules with
  | [] => false
  | rule :: rest =>
      if negb (actionsInclude (PermissionRule.actions rule)
                 (PermissionContext.action context))
      then checkRules rest context
      else match PermissionRule.condition rule with
           | Some condition =>
               if condition context then true else checkRules rest context
           | None => true
           end
  end.

Definition applicableRules (context : PermissionContext.t) : list PermissionRule.t :=
  List.filter
    (fun rule =>
       String.eqb (PermissionRule.role rule)
         (SessionUser.role (PermissionContext.user context))
       && ResourceType_eqb (PermissionRule.resource rule)
            (PermissionContext.resource context))
    PERMISSION_RULES.

Definition checkPermission (context : PermissionContext.t) : bool :=
  checkRules (applicableRules context) context.

(* ------------------------------------------------------------------------- *)
(** ** Query filters *)
(* ------------------------------------------------------------------------- *)

(** The object returned by [buildPermissionFilters]: each property is either
    missing or an [{ in: ... }] constraint. *)
Module Filters.
Record t : Type := mk {
  regionId : option (list Region);
  propertyType : option (list PropertyType);
  id : option (list string)
}.
Definition empty : t := mk None None None.
End Filters.

Definition buildPermissionFilters (user : SessionUser.t) (resource : ResourceType)
  : Filters.t :=
  if String.eqb (SessionUser.role user) "admin" || SessionUser.universalAccess user
  then Filters.empty
  else
    Filters.mk
      (if negb (regionsInclude (SessionUser.regions user) (JStr "all_regions"))
       then Some (SessionUser.regions user) else None)
      (if negb (propertyTypesInclude (SessionUser.propertyTypes user)
                  (JStr "all_types"))
       then Some (SessionUser.propertyTypes user) else None)
      (if (0 <? Z.of_nat (length (SessionUser.assignedBuildings user)))
          && ResourceType_eqb resource BUILDING
       then Some (SessionUser.assignedBuildings user) else None).

(* ------------------------------------------------------------------------- *)
(** ** The permission cache *)
(* ------------------------------------------------------------------------- *)

Module CacheEntry.
Record t : Type := mk { result : bool; timestamp : Z }.
End CacheEntry.

Abbreviation Cache := (gmap string CacheEntry.t).

Module PermissionCache.

Definition TTL : Z := 5 * 60 * 1000.

(** [context.resourceId || ''] *)
Definition resourceIdOrEmpty (resourceId : option string) : string :=
  if truthyId resourceId then default "" resourceId else "".

Definition getCacheKey (context : PermissionContext.t) : string :=
  SessionUser.id (PermissionContext.user context) +:+ ":" +:+
  ResourceType_str (PermissionContext.resource context) +:+ ":" +:+
  ActionType_str (PermissionContext.action context) +:+ ":" +:+
  resourceIdOrEmpty (PermissionContext.resourceId context).

(** [get]: [now] is the value [Date.now()] returns inside the call.  The
    result is the returned [boolean | null] and the cache afterwards. *)
Definition get (now : Z) (context : PermissionContext.t) (cache : Cache)
  : option bool * Cache :=
  let key := getCacheKey context in
  match cache !! key with
  | None => (None, cache)
  | Some cached =>
      if now - CacheEntry.timestamp cached >? TTL
      then (None, delete key cache)
      else (Some (CacheEntry.result cached), cache)
  end.

Definition set (now : Z) (context : PermissionContext.t) (result : bool)
    (cache : Cache) : Cache :=
  <[getCacheKey context := CacheEntry.mk result now]> cache.

(** One turn of the loop of [invalidateUser]. *)
Definition invalidateStep (userId : string) (cache : Cache) (key : string)
  : Cache :=
  if startsWith key (userId +:+ ":") then delete key cache else cache.

(** [invalidateUser]: the loop visits every key of the map once; deleting
    the visited key does not disturb the iteration. *)
Definition invalidateUser (userId : string) (cache : Cache) : Cache :=
  foldl (invalidateStep userId) cache (map_to_list cache).*1.

Definition clear (cache : Cache) : Cache := ∅.

End PermissionCache.

(** [checkPermissionWithCache] on the module-level [permissionCache].
    [nowGet] and [nowSet] are the clock readings of the [get] and of the
    [set] the call performs. *)
Definition checkPermissionWithCache (nowGet nowSet : Z)
    (context : PermissionContext.t) (cache : Cache) : bool * Cache :=
  match PermissionCache.get nowGet context cache with
  | (Some cached, cache') => (cached, cache')
  | (None, cache') =>
      let result := checkPermission context in
      (result, PermissionCache.set nowSet context result cache')
  end.

(* ------------------------------------------------------------------------- *)
(** ** Audit logging *)
(* ------------------------------------------------------------------------- *)

Module AuditLog.
Record t : Type := mk {
  userId : string;
  userEmail : string;
  action : string;
  resource : string;
  resourceId : option string;
  granted : bool;
  timestamp : Z;
  metadata : option Metadata
}.
End AuditLog.

(** What the audit path does to the outside world, in order. *)
Inductive Effect : Type :=
| ConsoleWarn (message : string) (log : AuditLog.t)
| ConsoleError (message : string) (context : PermissionContext.t).

(** A computation that appends to the trace of effects and returns a value. *)
Definition Audit (A : Type) : Type := list Effect -> A * list Effect.

Definition ret {A} (a : A) : Audit A := fun tr => (a, tr).
Definition bind {A B} (m : Audit A) (k : A -> Audit B) : Audit B :=
  fun tr => let (a, tr') := m tr in k a tr'.
Definition emit (e : Effect) : Audit unit := fun tr => (tt, tr ++ [e]).

Notation "'await' x ':=' m 'in' k" := (bind m (fun x => k))
  (at level 10, x name, m at level 100, k at level 200, only parsing).
Notation "'perform' m 'then' k" := (bind m (fun _ => k))
  (at level 10, m at level 100, k at level 200, only parsing).

Definition isSupiciousActivity (context : PermissionContext.t) : Audit bool :=
  ret (ResourceType_eqb (PermissionContext.resource context) ADMIN
       && negb (String.eqb
                  (SessionUser.role (PermissionContext.user context)) "admin")).

Definition alertSecurityTeam (context : PermissionContext.t) : Audit unit :=
  emit (ConsoleError "SECURITY ALERT: Suspicious activity detected" context).

(** [now] is the time [new Date()] captures. *)
Definition logPermissionDenied (now : Z) (context : PermissionContext.t)
  : Audit unit :=
  let log :=
    AuditLog.mk
      (SessionUser.id (PermissionContext.user context))
      (SessionUser.email (PermissionContext.user context))
      (ActionType_str (PermissionContext.action context))
      (ResourceType_str (PermissionContext.resource context))
      (PermissionContext.resourceId context)
      false
      now
      (PermissionContext.metadata context) in
  perform emit (ConsoleWarn "Permission denied:" log) then
  await suspicious := isSupiciousActivity context in
  if suspicious then alertSecurityTeam context else ret tt.

(** The number of escalation calls recorded in a trace. *)
Definition isEscalation (e : Effect) : bool :=
  match e with ConsoleError _ _ => true | ConsoleWarn _ _ => false end.

Definition escalations (tr : list Effect) : nat :=
  length (List.filter isEscalation tr).

(** The same denial logged once per clock reading of [times], in sequence. *)
Fixpoint logDenials (times : list Z) (context : PermissionContext.t)
  : Audit unit :=
  match times with
  | [] => ret tt
  | now :: rest =>
      perform logPermissionDenied now context then logDenials rest context
  end.

(* ------------------------------------------------------------------------- *)
(** ** Helper functions of the middleware and sample data *)
(* ------------------------------------------------------------------------- *)

(** [getResourceMetadata]: the demonstration lookup of the source. *)
Definition getResourceMetadata (resource : ResourceType)
    (resourceId : option string) : Metadata :=
  if ResourceType_eqb resource BUILDING && truthyId resourceId
  then <["regionId" := JStr "south_florida"]>
         (<["propertyType" := JStr "office"]> ∅)
  else ∅.

(** [loadUserPermissions]: the demonstration record of the source; [now] is
    the time [new Date()] captures. *)
Definition loadUserPermissions (userId : string) (now : Z) : SessionUser.t :=
  SessionUser.mk userId "user@example.com" "broker"
    [SOUTH_FLORIDA; CENTRAL_FLORIDA] [OFFICE]
    ["building_123"; "building_456"] false now.

Definition brokerUser : SessionUser.t := loadUserPermissions "user_1" 0.

(** A broker scoped by the wildcards and one assigned building. *)
Definition wildcardBroker : SessionUser.t :=
  SessionUser.mk "user_2" "broker@example.com" "broker"
    [ALL_REGIONS] [ALL_TYPES] ["building_123"] false 0.

Definition adminUser : SessionUser.t :=
  SessionUser.mk "user_0" "admin@example.com" "admin" [] [] [] false 0.

Definition guestUser : SessionUser.t :=
  SessionUser.mk "user_9" "guest@example.com" "guest"
    [ALL_REGIONS] [ALL_TYPES] [] false 0.

(** The context [requirePermission] builds for a request. *)
Definition requestContext (user : SessionUser.t) (resource : ResourceType)
    (action : ActionType) (resourceId : option string) : PermissionContext.t :=
  PermissionContext.mk user resource action resourceId
    (Some (getResourceMetadata resource resourceId)).

(** Metadata of an office building in South Florida. *)
Definition officeMetadata : Metadata :=
  <["regionId" := JStr "south_florida"]> (<["propertyType" := JStr "office"]> ∅).

(** [brokerUser] asking to read a suite, named by a building that is not
    assigned to the broker, whose metadata is in the broker's scope. *)
Definition unassignedSuiteRequest : PermissionContext.t :=
  PermissionContext.mk brokerUser SUITE READ (Some "building_999")
    (Some officeMetadata).

(** The broker's request for an assigned building, and the same request
    after the identity was demoted and lost its scopes: same cache key,
    different decision. *)
Definition assignedBuildingRequest : PermissionContext.t :=
  requestContext brokerUser BUILDING READ (Some "building_123").

Definition demotedRequest : PermissionContext.t :=
  requestContext
    (SessionUser.mk "user_1" "user@example.com" "viewer" [] [] [] false 0)
    BUILDING READ (Some "building_123").

(** A request by [wildcardBroker] that names the empty resource id. *)
Definition emptyIdRequest : PermissionContext.t :=
  requestContext wildcardBroker BUILDING READ (Some "").

(* ------------------------------------------------------------------------- *)
(** ** Middleware: requests, responses, sessions *)
(* ------------------------------------------------------------------------- *)

(** The session object of a request: [session.userId] and
    [session.permissions]. *)
Module Session.
Record t : Type := mk {
  userId : option string;
  permissions : option SessionUser.t
}.
End Session.

(** What the middleware reads from an Express request: [req.user],
    [req.params.id], [req.params.buildingId], [req.body?.buildingId]
    (missing when the body or the property is missing), [req.session], and
    the [req.permissionFilters] that [filterByPermission] attaches.  Building
    ids are strings, as [PermissionContext.resourceId] requires. *)
Module Request.
Record t : Type := mk {
  user : option SessionUser.t;
  paramsId : option string;
  paramsBuildingId : option string;
  bodyBuildingId : option string;
  session : option Session.t;
  permissionFilters : option Filters.t
}.
End Request.

(** How a middleware ends: it calls [next()], or it answers with
    [res.status(code).json(body)]; the body is the list of its properties. *)
Inductive Response : Type :=
| Next
| Json (status : Z) (body : list (string * string)).

(** [a || b] on optional strings: [a] when truthy, else [b]. *)
Definition orElse (a b : option string) : option string :=
  if truthyId a then a else b.

(** [req.params.id || req.params.buildingId || req.body?.buildingId] *)
Definition extractResourceId (req : Request.t) : option string :=
  orElse (orElse (Request.paramsId req) (Request.paramsBuildingId req))
    (Request.bodyBuildingId req).

(** [requirePermission(resource, action)] applied to a request.  [now] is
    the time the audit record captures.  The [catch] branch answers
    exceptions of collaborators; nothing in the body raises one. *)
Definition requirePermission (resource : ResourceType) (action : ActionType)
    (now : Z) (req : Request.t) : Audit Response :=
  match Request.user req with
  | None => ret (Json 401 [("error", "Authentication required")])
  | Some user =>
      let resourceId := extractResourceId req in
      let metadata := getResourceMetadata resource resourceId in
      let context :=
        PermissionContext.mk user resource action resourceId (Some metadata) in
      if negb (checkPermission context)
      then
        perform logPermissionDenied now context then
        ret (Json 403
               [("error", "Insufficient permissions");
                ("required",
                 ActionType_str action +:+ " permission on "
                 +:+ ResourceType_str resource);
                ("userRole", SessionUser.role user)])
      else ret Next
  end.

(** [filterByPermission(resource)] applied to a request: the response and
    the request as the middleware leaves it. *)
Definition filterByPermission (resource : ResourceType) (req : Request.t)
  : Response * Request.t :=
  match Request.user req with
  | None => (Json 401 [("error", "Authentication required")], req)
  | Some user =>
      (Next,
       Request.mk (Request.user req) (Request.paramsId req)
         (Request.paramsBuildingId req) (Request.bodyBuildingId req)
         (Request.session req)
         (Some (buildPermissionFilters user resource)))
  end.

Definition EXPIRY_TIME : Z := 30 * 60 * 1000.

(** [isPermissionsExpired]: [now] is the reading of [Date.now()]. *)
Definition isPermissionsExpired (now : Z) (permissions : SessionUser.t) : bool :=
  now - SessionUser.lastActivity permissions >? EXPIRY_TIME.

(** [ensurePermissionsLoaded]: [nowCheck] is the clock reading of the expiry
    test, [nowLoad] the one [loadUserPermissions] captures.  The result is
    the response and the request with the session and [req.user] as the
    middleware leaves them. *)
Definition ensurePermissionsLoaded (nowCheck nowLoad : Z) (req : Request.t)
  : Response * Request.t :=
  match Request.session req with
  | None => (Json 401 [("error", "Authentication required")], req)
  | Some session =>
      if negb (truthyId (Session.userId session))
      then (Json 401 [("error", "Authentication required")], req)
      else
        let userId := default "" (Session.userId session) in
        let reload :=
          match Session.permissions session with
          | None => true
          | Some permissions => isPermissionsExpired nowCheck permissions
          end in
        if reload
        then
          match Some (loadUserPermissions userId nowLoad) with
          | None => (Json 401 [("error", "Invalid user session")], req)
          | Some permissions =>
              (Next,
               Request.mk (Some permissions) (Request.paramsId req)
                 (Request.paramsBuildingId req) (Request.bodyBuildingId req)
                 (Some (Session.mk (Session.userId session) (Some permissions)))
                 (Request.permissionFilters req))
          end
        else
          (Next,
           Request.mk (Session.permissions session) (Request.paramsId req)
             (Request.paramsBuildingId req) (Request.bodyBuildingId req)
             (Request.session req) (Request.permissionFilters req))
  end.

(** The same identity under another role. *)
Definition withRole (role : UserRole) (user : SessionUser.t) : SessionUser.t :=
  SessionUser.mk (SessionUser.id user) (SessionUser.email user) role
    (SessionUser.regions user) (SessionUser.propertyTypes user)
    (SessionUser.assignedBuildings user) (SessionUser.universalAccess user)
    (SessionUser.lastActivity user).

(** A context with its identity replaced. *)
Definition withUser (user : SessionUser.t) (context : PermissionContext.t)
  : PermissionContext.t :=
  PermissionContext.mk user (PermissionContext.resource context)
    (PermissionContext.action context) (PermissionContext.resourceId context)
    (PermissionContext.metadata context).

(* ------------------------------------------------------------------------- *)
(** ** Helpers of the stacking-plan view *)
(* ------------------------------------------------------------------------- *)




(* ========================================================================= *)
(** * Properties *)
(* ========================================================================= *)

(* ------------------------------------------------------------------------- *)
(** ** Basic facts about the comparisons *)
(* ------------------------------------------------------------------------- *)

Lemma ResourceType_eqb_eq (a b : ResourceType) :
  ResourceType_eqb a b = true ↔ a = b.
Proof. destruct a, b; cbv; split; congruence. Qed.

Lemma ActionType_eqb_eq (a b : ActionType) :
  ActionType_eqb a b = true ↔ a = b.
Proof. destruct a, b; cbv; split; congruence. Qed.

Lemma actionsInclude_spec (actions : list ActionType) (a : ActionType) :
  actionsInclude actions a = true ↔ a ∈ actions.
Proof.
  unfold actionsInclude. rewrite existsb_exists. split.
  - intros (x & Hin & Heq). apply ActionType_eqb_eq in Heq. subst x.
    by apply list_elem_of_In.
  - intros Hin. exists a. split; [by apply list_elem_of_In|].
    by apply ActionType_eqb_eq.
Qed.

Lemma includes_spec (arr : list string) (s : string) :
  includes arr s = true ↔ s ∈ arr.
Proof.
  unfold includes. rewrite existsb_exists. split.
  - intros (x & Hin & Heq). apply String.eqb_eq in Heq. subst x.
    by apply list_elem_of_In.
  - intros Hin. exists s. split; [by apply list_elem_of_In|].
    apply String.eqb_refl.
Qed.

Lemma Region_str_inj (a b : Region) : Region_str a = Region_str b → a = b.
Proof. destruct a, b; cbv; congruence. Qed.

Lemma PropertyType_str_inj (a b : PropertyType) :
  PropertyType_str a = PropertyType_str b → a = b.
Proof. destruct a, b; cbv; congruence. Qed.

(** A value found in a regions array is the string of one of its members. *)
Lemma regionsInclude_spec (regions : list Region) (v : JsVal) :
  regionsInclude regions v = true ↔ ∃ r, r ∈ regions ∧ v = JStr (Region_str r).
Proof.
  unfold regionsInclude, includesVal. rewrite existsb_exists. split.
  - intros (x & Hin & Heq). apply in_map_iff in Hin as (r & <- & Hr).
    exists r. split; [by apply list_elem_of_In|].
    destruct v; simpl in Heq; try discriminate.
    apply String.eqb_eq in Heq. by subst.
  - intros (r & Hr & ->). exists (JStr (Region_str r)). split.
    + apply in_map_iff. exists r. split; [done|]. by apply list_elem_of_In.
    + simpl. apply String.eqb_refl.
Qed.

Lemma propertyTypesInclude_spec (pts : list PropertyType) (v : JsVal) :
  propertyTypesInclude pts v = true
  ↔ ∃ p, p ∈ pts ∧ v = JStr (PropertyType_str p).
Proof.
  unfold propertyTypesInclude, includesVal. rewrite existsb_exists. split.
  - intros (x & Hin & Heq). apply in_map_iff in Hin as (p & <- & Hp).
    exists p. split; [by apply list_elem_of_In|].
    destruct v; simpl in Heq; try discriminate.
    apply String.eqb_eq in Heq. by subst.
  - intros (p & Hp & ->). exists (JStr (PropertyType_str p)). split.
    + apply in_map_iff. exists p. split; [done|]. by apply list_elem_of_In.
    + simpl. apply String.eqb_refl.
Qed.

Lemma regionsInclude_wildcard (regions : list Region) :
  regionsInclude regions (JStr "all_regions") = true ↔ ALL_REGIONS ∈ regions.
Proof.
  rewrite regionsInclude_spec. split.
  - intros (r & Hr & Heq). injection Heq as Heq.
    by rewrite (Region_str_inj ALL_REGIONS r Heq).
  - intros Hin. by exists ALL_REGIONS.
Qed.

Lemma propertyTypesInclude_wildcard (pts : list PropertyType) :
  propertyTypesInclude pts (JStr "all_types") = true ↔ ALL_TYPES ∈ pts.
Proof.
  rewrite propertyTypesInclude_spec. split.
  - intros (p & Hp & Heq). injection Heq as Heq.
    by rewrite (PropertyType_str_inj ALL_TYPES p Heq).
  - intros Hin. by exists ALL_TYPES.
Qed.

(** The string of an enum member is never falsy. *)
Lemma Region_str_truthy (r : Region) : truthy (JStr (Region_str r)) = true.
Proof. by destruct r. Qed.

Lemma PropertyType_str_truthy (p : PropertyType) :
  truthy (JStr (PropertyType_str p)) = true.
Proof. by destruct p. Qed.

(** [hasRegionAccess] as one boolean expression. *)
Lemma hasRegionAccess_unfold (ctx : PermissionContext.t) :
  hasRegionAccess ctx =
  SessionUser.universalAccess (PermissionContext.user ctx)
  || regionsInclude (SessionUser.regions (PermissionContext.user ctx))
       (JStr "all_regions")
  || regionsInclude (SessionUser.regions (PermissionContext.user ctx))
       (metadataProp (PermissionContext.metadata ctx) "regionId").
Proof.
  unfold hasRegionAccess.
  destruct (SessionUser.universalAccess _ || regionsInclude _ (JStr _)); [done|].
  simpl.
  destruct (truthy (metadataProp _ "regionId")) eqn:Ht; [done|]. simpl.
  symmetry. apply not_true_is_false. intros Hin.
  apply regionsInclude_spec in Hin as (r & _ & Hv).
  rewrite Hv, Region_str_truthy in Ht. discriminate.
Qed.

Lemma hasPropertyTypeAccess_unfold (ctx : PermissionContext.t) :
  hasPropertyTypeAccess ctx =
  SessionUser.universalAccess (PermissionContext.user ctx)
  || propertyTypesInclude (SessionUser.propertyTypes (PermissionContext.user ctx))
       (JStr "all_types")
  || propertyTypesInclude (SessionUser.propertyTypes (PermissionContext.user ctx))
       (metadataProp (PermissionContext.metadata ctx) "propertyType").
Proof.
  unfold hasPropertyTypeAccess.
  destruct (SessionUser.universalAccess _ || propertyTypesInclude _ (JStr _));
    [done|].
  simpl.
  destruct (truthy (metadataProp _ "propertyType")) eqn:Ht; [done|]. simpl.
  symmetry. apply not_true_is_false. intros Hin.
  apply propertyTypesInclude_spec in Hin as (p & _ & Hv).
  rewrite Hv, PropertyType_str_truthy in Ht. discriminate.
Qed.

Lemma length_pos_nonempty {A} (l : list A) :
  (0 <? Z.of_nat (length l)) = true ↔ l ≠ [].
Proof.
  destruct l as [|x l]; [by split|].
  split; [done|]. intros _. apply Z.ltb_lt. simpl. lia.
Qed.

Lemma truthyId_spec (resourceId : option string) :
  truthyId resourceId = true ↔ ∃ rid, resourceId = Some rid ∧ rid ≠ "".
Proof.
  destruct resourceId as [rid|]; simpl.
  - rewrite negb_true_iff. split.
    + intros H. exists rid. split; [done|]. by apply String.eqb_neq.
    + intros (? & [= <-] & Hne). by apply String.eqb_neq.
  - split; [done|]. by intros (? & ? & _).
Qed.

Lemma metadataProp_absent (metadata : option Metadata) (name : string) :
  (metadata = None ∨ ∃ md, metadata = Some md ∧ md !! name = None) →
  metadataProp metadata name = JUndefined.
Proof.
  intros [-> | (md & -> & Hnone)]; [done|]. simpl. by rewrite Hnone.
Qed.

(* ------------------------------------------------------------------------- *)
(** ** Scope predicates *)
(* ------------------------------------------------------------------------- *)

(** C4. [hasRegionAccess] holds exactly when the identity has universal
    access, or its regions contain the wildcard [all_regions], or its regions
    contain the region tag carried by the metadata; when the metadata or its
    region tag is absent (the property reads as [undefined], or any falsy
    value) and neither universal access nor the wildcard applies, the result
    is [false].  The same holds for [hasPropertyTypeAccess] over the property
    types, [all_types] and the metadata's property type.  With universal
    access both predicates hold whatever the metadata, absent or not. *)
Theorem scope_predicates_spec (ctx : PermissionContext.t) :
  (hasRegionAccess ctx = true ↔
     SessionUser.universalAccess (PermissionContext.user ctx) = true
     ∨ ALL_REGIONS ∈ SessionUser.regions (PermissionContext.user ctx)
     ∨ ∃ r, r ∈ SessionUser.regions (PermissionContext.user ctx)
            ∧ metadataProp (PermissionContext.metadata ctx) "regionId"
              = JStr (Region_str r))
  ∧ (SessionUser.universalAccess (PermissionContext.user ctx) = false →
     ALL_REGIONS ∉ SessionUser.regions (PermissionContext.user ctx) →
     (PermissionContext.metadata ctx = None
      ∨ (∃ md, PermissionContext.metadata ctx = Some md ∧ md !! "regionId" = None)
      ∨ truthy (metadataProp (PermissionContext.metadata ctx) "regionId") = false) →
     hasRegionAccess ctx = false)
  ∧ (hasPropertyTypeAccess ctx = true ↔
     SessionUser.universalAccess (PermissionContext.user ctx) = true
     ∨ ALL_TYPES ∈ SessionUser.propertyTypes (PermissionContext.user ctx)
     ∨ ∃ p, p ∈ SessionUser.propertyTypes (PermissionContext.user ctx)
            ∧ metadataProp (PermissionContext.metadata ctx) "propertyType"
              = JStr (PropertyType_str p))
  ∧ (SessionUser.universalAccess (PermissionContext.user ctx) = false →
     ALL_TYPES ∉ SessionUser.propertyTypes (PermissionContext.user ctx) →
     (PermissionContext.metadata ctx = None
      ∨ (∃ md, PermissionContext.metadata ctx = Some md
               ∧ md !! "propertyType" = None)
      ∨ truthy (metadataProp (PermissionContext.metadata ctx) "propertyType")
        = false) →
     hasPropertyTypeAccess ctx = false)
  ∧ (SessionUser.universalAccess (PermissionContext.user ctx) = true →
     hasRegionAccess ctx = true ∧ hasPropertyTypeAccess ctx = true).
Proof.
  assert (Hregion : hasRegionAccess ctx = true ↔
     SessionUser.universalAccess (PermissionContext.user ctx) = true
     ∨ ALL_REGIONS ∈ SessionUser.regions (PermissionContext.user ctx)
     ∨ ∃ r, r ∈ SessionUser.regions (PermissionContext.user ctx)
            ∧ metadataProp (PermissionContext.metadata ctx) "regionId"
              = JStr (Region_str r)).
  { rewrite hasRegionAccess_unfold, !orb_true_iff.
    rewrite regionsInclude_wildcard, regionsInclude_spec. tauto. }
  assert (Htype : hasPropertyTypeAccess ctx = true ↔
     SessionUser.universalAccess (PermissionContext.user ctx) = true
     ∨ ALL_TYPES ∈ SessionUser.propertyTypes (PermissionContext.user ctx)
     ∨ ∃ p, p ∈ SessionUser.propertyTypes (PermissionContext.user ctx)
            ∧ metadataProp (PermissionContext.metadata ctx) "propertyType"
              = JStr (PropertyType_str p)).
  { rewrite hasPropertyTypeAccess_unfold, !orb_true_iff.
    rewrite propertyTypesInclude_wildcard, propertyTypesInclude_spec. tauto. }
  split; [exact Hregion|]. split.
  { intros Hu Hw Habs. apply not_true_is_false. rewrite Hregion.
    intros [Hu' | [Hw' | (r & _ & Hv)]]; [congruence | done |].
    assert (Hf : truthy (metadataProp (PermissionContext.metadata ctx) "regionId")
                 = false).
    { destruct Habs as [Hn | [Hn | Hf]]; [| | exact Hf];
        rewrite metadataProp_absent; auto. }
    rewrite Hv, Region_str_truthy in Hf. discriminate. }
  split; [exact Htype|]. split.
  { intros Hu Hw Habs. apply not_true_is_false. rewrite Htype.
    intros [Hu' | [Hw' | (p & _ & Hv)]]; [congruence | done |].
    assert (Hf : truthy (metadataProp (PermissionContext.metadata ctx)
                           "propertyType") = false).
    { destruct Habs as [Hn | [Hn | Hf]]; [| | exact Hf];
        rewrite metadataProp_absent; auto. }
    rewrite Hv, PropertyType_str_truthy in Hf. discriminate. }
  intros Hu. split; [apply Hregion | apply Htype]; by left.
Qed.

(** [hasBuildingAccess] as one boolean expression. *)
Lemma hasBuildingAccess_unfold (ctx : PermissionContext.t) :
  hasBuildingAccess ctx =
  String.eqb (SessionUser.role (PermissionContext.user ctx)) "admin"
  || SessionUser.universalAccess (PermissionContext.user ctx)
  || hasRegionAccess ctx && hasPropertyTypeAccess ctx
     && (if truthyId (PermissionContext.resourceId ctx)
            && (0 <? Z.of_nat (length (SessionUser.assignedBuildings
                                         (PermissionContext.user ctx))))
         then includes (SessionUser.assignedBuildings (PermissionContext.user ctx))
                (default "" (PermissionContext.resourceId ctx))
         else true).
Proof.
  unfold hasBuildingAccess.
  destruct (String.eqb _ "admin" || SessionUser.universalAccess _); [done|].
  destruct (hasRegionAccess ctx), (hasPropertyTypeAccess ctx); done.
Qed.

(** The allow-list test of [hasBuildingAccess], read as a proposition. *)
Lemma allowList_spec (resourceId : option string) (assigned : list string) :
  (if truthyId resourceId && (0 <? Z.of_nat (length assigned))
   then includes assigned (default "" resourceId) else true) = true
  ↔ ∀ rid, resourceId = Some rid → rid ≠ "" → assigned ≠ [] → rid ∈ assigned.
Proof.
  destruct (truthyId resourceId) eqn:Hid;
    destruct (0 <? Z.of_nat (length assigned)) eqn:Hlen; simpl.
  - apply truthyId_spec in Hid as (rid & -> & Hne).
    apply length_pos_nonempty in Hlen. simpl. rewrite includes_spec. split.
    + by intros Hin ? [= <-] _ _.
    + intros H. by apply H.
  - split; [|done]. intros _ rid _ _ Hne.
    apply length_pos_nonempty in Hne. congruence.
  - split; [|done]. intros _ rid Hrid Hne.
    assert (truthyId resourceId = true); [|congruence].
    apply truthyId_spec. eauto.
  - split; [|done]. intros _ rid _ _ Hne.
    apply length_pos_nonempty in Hne. congruence.
Qed.

(** C3 (amended). [hasBuildingAccess] holds for every identity with role
    admin or with universal access.  For every other identity it holds
    exactly when [hasRegionAccess] and [hasPropertyTypeAccess] both hold and,
    when a non-empty resource id is supplied and the assigned buildings are
    non-empty, the resource id is one of the assigned buildings.  When the
    assigned buildings are empty the allow-list test is skipped and the
    result is that of the region and property-type tests alone. *)
Theorem hasBuildingAccess_spec (ctx : PermissionContext.t) :
  ((SessionUser.role (PermissionContext.user ctx) = "admin"
    ∨ SessionUser.universalAccess (PermissionContext.user ctx) = true) →
   hasBuildingAccess ctx = true)
  ∧ (SessionUser.role (PermissionContext.user ctx) ≠ "admin" →
     SessionUser.universalAccess (PermissionContext.user ctx) = false →
     (hasBuildingAccess ctx = true ↔
        hasRegionAccess ctx = true ∧ hasPropertyTypeAccess ctx = true
        ∧ ∀ rid, PermissionContext.resourceId ctx = Some rid → rid ≠ "" →
                 SessionUser.assignedBuildings (PermissionContext.user ctx) ≠ [] →
                 rid ∈ SessionUser.assignedBuildings (PermissionContext.user ctx)))
  ∧ (SessionUser.role (PermissionContext.user ctx) ≠ "admin" →
     SessionUser.universalAccess (PermissionContext.user ctx) = false →
     SessionUser.assignedBuildings (PermissionContext.user ctx) = [] →
     hasBuildingAccess ctx = hasRegionAccess ctx && hasPropertyTypeAccess ctx).
Proof.
  rewrite hasBuildingAccess_unfold. split; [|split].
  - intros [Hadmin | Hu].
    + by rewrite Hadmin.
    + rewrite Hu. by rewrite orb_true_r.
  - intros Hna%String.eqb_neq Hu. rewrite Hna, Hu. simpl.
    rewrite !andb_true_iff, allowList_spec. tauto.
  - intros Hna%String.eqb_neq Hu Hempty.
    rewrite Hna, Hu, Hempty. simpl. by rewrite andb_false_r, andb_true_r.
Qed.

(** C3, the claim as stated fails: a broker with wildcard scopes and one
    assigned building, asking for the resource id [""] (the context the
    middleware builds for such a request).  A resource id is supplied, the
    assigned buildings are non-empty and do not contain it, yet access is
    granted. *)
Lemma hasBuildingAccess_supplied_id_counterexample :
  SessionUser.role wildcardBroker ≠ "admin"
  ∧ SessionUser.universalAccess wildcardBroker = false
  ∧ PermissionContext.resourceId emptyIdRequest = Some ""
  ∧ SessionUser.assignedBuildings wildcardBroker ≠ []
  ∧ ("" ∉ SessionUser.assignedBuildings wildcardBroker)
  ∧ hasBuildingAccess emptyIdRequest = true
  ∧ ¬ (hasBuildingAccess emptyIdRequest = true ↔
       hasRegionAccess emptyIdRequest = true
       ∧ hasPropertyTypeAccess emptyIdRequest = true
       ∧ ∀ rid,
           PermissionContext.resourceId emptyIdRequest = Some rid →
           SessionUser.assignedBuildings wildcardBroker ≠ [] →
           rid ∈ SessionUser.assignedBuildings wildcardBroker).
Proof.
  assert (Hnotin : "" ∉ SessionUser.assignedBuildings wildcardBroker).
  { simpl. rewrite list_elem_of_singleton. discriminate. }
  repeat split; try done.
  intros [Hdir _].
  destruct Hdir as (_ & _ & Hmem); [reflexivity|].
  apply Hnotin. by apply Hmem.
Qed.

(** C9. For an identity that is neither admin nor universal, with non-empty
    assigned buildings and passing region and property-type tests,
    [hasBuildingAccess] grants access when the resource id is the empty
    string, as it does when the resource id is absent: the allow-list
    membership test is skipped for a falsy resource id, whether or not the
    empty string is among the assigned buildings. *)
Theorem hasBuildingAccess_falsy_id (ctx : PermissionContext.t) :
  SessionUser.role (PermissionContext.user ctx) ≠ "admin" →
  SessionUser.universalAccess (PermissionContext.user ctx) = false →
  SessionUser.assignedBuildings (PermissionContext.user ctx) ≠ [] →
  hasRegionAccess ctx = true →
  hasPropertyTypeAccess ctx = true →
  (PermissionContext.resourceId ctx = Some ""
   ∨ PermissionContext.resourceId ctx = None) →
  hasBuildingAccess ctx = true.
Proof.
  intros _ _ _ Hr Ht Hid. rewrite hasBuildingAccess_unfold, Hr, Ht.
  destruct Hid as [-> | ->]; simpl; apply orb_true_r.
Qed.

Lemma hasBuildingAccess_falsy_id_witness :
  ("" ∉ SessionUser.assignedBuildings wildcardBroker)
  ∧ hasBuildingAccess emptyIdRequest = true.
Proof.
  split.
  - simpl. rewrite list_elem_of_singleton. discriminate.
  - apply (hasBuildingAccess_falsy_id emptyIdRequest).
    + discriminate.
    + reflexivity.
    + discriminate.
    + reflexivity.
    + reflexivity.
    + left. reflexivity.
Defined.

(* ------------------------------------------------------------------------- *)
(** ** Rule evaluation *)
(* ------------------------------------------------------------------------- *)

(** The loop over the rules answers [true] exactly when some rule of the list
    lists the action and has no condition or a condition that holds. *)
Lemma checkRules_true_iff (rules : list PermissionRule.t)
    (ctx : PermissionContext.t) :
  checkRules rules ctx = true ↔
  ∃ rule, rule ∈ rules
          ∧ PermissionContext.action ctx ∈ PermissionRule.actions rule
          ∧ (PermissionRule.condition rule = None
             ∨ ∃ c, PermissionRule.condition rule = Some c ∧ c ctx = true).
Proof.
  induction rules as [|rule rest IH]; simpl.
  - split; [done|]. intros (rule & Hin & _). by apply elem_of_nil in Hin.
  - destruct (actionsInclude (PermissionRule.actions rule)
                (PermissionContext.action ctx)) eqn:Hact; simpl.
    + apply actionsInclude_spec in Hact.
      destruct (PermissionRule.condition rule) as [c|] eqn:Hcond.
      * destruct (c ctx) eqn:Hc.
        -- split; [|done]. intros _. exists rule.
           split; [apply elem_of_cons; by left|]. split; [done|]. right. eauto.
        -- rewrite IH. split.
           ++ intros (r & Hin & H). exists r.
              split; [apply elem_of_cons; by right | done].
           ++ intros (r & Hin & Ha & Hc').
              apply elem_of_cons in Hin as [-> | Hin]; [|by exists r].
              destruct Hc' as [Hn | (c' & Hs & Hc')]; congruence.
      * split; [|done]. intros _. exists rule.
        split; [apply elem_of_cons; by left|]. split; [done|]. by left.
    + rewrite IH. split.
      * intros (r & Hin & H). exists r.
        split; [apply elem_of_cons; by right | done].
      * intros (r & Hin & Ha & Hc').
        apply elem_of_cons in Hin as [-> | Hin]; [|by exists r].
        apply actionsInclude_spec in Ha. congruence.
Qed.

Lemma applicableRules_spec (ctx : PermissionContext.t) (rule : PermissionRule.t) :
  rule ∈ applicableRules ctx ↔
  rule ∈ PERMISSION_RULES
  ∧ PermissionRule.role rule = SessionUser.role (PermissionContext.user ctx)
  ∧ PermissionRule.resource rule = PermissionContext.resource ctx.
Proof.
  unfold applicableRules.
  rewrite !list_elem_of_In, filter_In, andb_true_iff.
  rewrite String.eqb_eq, ResourceType_eqb_eq. tauto.
Qed.

(** [checkPermission] grants exactly when some rule of the table matches. *)
Lemma checkPermission_true_iff (ctx : PermissionContext.t) :
  checkPermission ctx = true ↔
  ∃ rule, rule ∈ PERMISSION_RULES
          ∧ PermissionRule.role rule = SessionUser.role (PermissionContext.user ctx)
          ∧ PermissionRule.resource rule = PermissionContext.resource ctx
          ∧ PermissionContext.action ctx ∈ PermissionRule.actions rule
          ∧ (PermissionRule.condition rule = None
             ∨ ∃ c, PermissionRule.condition rule = Some c ∧ c ctx = true).
Proof.
  unfold checkPermission. rewrite checkRules_true_iff. split.
  - intros (rule & Hin & H). apply applicableRules_spec in Hin. exists rule. tauto.
  - intros (rule & Hin & Hrole & Hres & H). exists rule.
    split; [|done]. by apply applicableRules_spec.
Qed.

(** Closes a goal from [H : x ∈ [a; b; ...]] when [x] differs from each
    listed element by constructors. *)
Ltac no_member H :=
  exfalso;
  repeat (apply elem_of_cons in H as [H | H]; [discriminate H|]);
  by apply elem_of_nil in H.

(** The roles the table has rules for. *)
Lemma PERMISSION_RULES_roles (rule : PermissionRule.t) :
  rule ∈ PERMISSION_RULES →
  PermissionRule.role rule ∈ ["admin"; "researcher"; "broker"; "viewer"].
Proof.
  unfold PERMISSION_RULES. intros Hin.
  repeat (apply elem_of_cons in Hin as [-> | Hin]; [simpl; set_solver|]).
  by apply elem_of_nil in Hin.
Qed.

(** The resource kinds the table has rules for. *)
Lemma PERMISSION_RULES_resources (rule : PermissionRule.t) :
  rule ∈ PERMISSION_RULES →
  PermissionRule.resource rule ∈ [BUILDING; SUITE; TENANT; ADMIN].
Proof.
  unfold PERMISSION_RULES. intros Hin.
  repeat (apply elem_of_cons in Hin as [-> | Hin]; [simpl; set_solver|]).
  by apply elem_of_nil in Hin.
Qed.

(** A role outside the table is denied everything. *)
Lemma checkPermission_unknown_role (ctx : PermissionContext.t) :
  SessionUser.role (PermissionContext.user ctx)
    ∉ ["admin"; "researcher"; "broker"; "viewer"] →
  checkPermission ctx = false.
Proof.
  intros Hrole. apply not_true_is_false. rewrite checkPermission_true_iff.
  intros (rule & Hin & Heq & _). apply Hrole. rewrite <- Heq.
  by apply PERMISSION_RULES_roles.
Qed.

(** A resource kind outside the table is denied to every role. *)
Lemma checkPermission_unknown_resource (ctx : PermissionContext.t) :
  PermissionContext.resource ctx ∈ [MARKET; ANALYTICS; EXPORT] →
  checkPermission ctx = false.
Proof.
  intros Hres. apply not_true_is_false. rewrite checkPermission_true_iff.
  intros (rule & Hin & _ & Heq & _).
  apply PERMISSION_RULES_resources in Hin. rewrite Heq in Hin.
  destruct (PermissionContext.resource ctx);
    first [no_member Hres | no_member Hin].
Qed.

(** C5. Default deny: [checkPermission] is a total function into the
    booleans, and it answers [false] whenever no rule of the table has the
    identity's role, the requested resource kind, the requested action in its
    action set and a condition that is absent or holds.  This covers roles
    without rules, resource kinds without rules for the role, and actions
    outside the action set of every applicable rule. *)
Theorem checkPermission_default_deny (ctx : PermissionContext.t) :
  (∀ rule, rule ∈ PERMISSION_RULES →
           PermissionRule.role rule
           = SessionUser.role (PermissionContext.user ctx) →
           PermissionRule.resource rule = PermissionContext.resource ctx →
           PermissionContext.action ctx ∈ PermissionRule.actions rule →
           ∃ c, PermissionRule.condition rule = Some c ∧ c ctx = false) →
  checkPermission ctx = false.
Proof.
  intros Hnone. apply not_true_is_false. rewrite checkPermission_true_iff.
  intros (rule & Hin & Hrole & Hres & Hact & Hcond).
  destruct (Hnone rule Hin Hrole Hres Hact) as (c & Hc & Hfalse).
  destruct Hcond as [Hn | (c' & Hc' & Htrue)]; congruence.
Qed.

Lemma checkPermission_default_deny_witness :
  checkPermission (requestContext guestUser BUILDING READ (Some "building_123"))
  = false.
Proof.
  apply (checkPermission_default_deny
           (requestContext guestUser BUILDING READ (Some "building_123"))).
  intros rule Hin Hrole.
  apply PERMISSION_RULES_roles in Hin. rewrite Hrole in Hin. simpl in Hin.
  no_member Hin.
Defined.

(** C1, the failing input: an admin asking to read a suite is denied, and so
    is an admin on every resource kind the admin rules leave out, although
    the table announces universal access for admins and a viewer in scope may
    read the same suite. *)
Theorem admin_denied_on_suite :
  SessionUser.role adminUser = "admin"
  ∧ checkPermission (requestContext adminUser SUITE READ (Some "suite_1")) = false
  ∧ checkPermission (requestContext adminUser MARKET READ None) = false
  ∧ checkPermission (requestContext adminUser TENANT SHARE None) = false
  ∧ checkPermission
      (requestContext
         (SessionUser.mk "user_3" "viewer@example.com" "viewer"
            [ALL_REGIONS] [ALL_TYPES] [] false 0)
         SUITE READ (Some "suite_1")) = true.
Proof. repeat split; vm_compute; reflexivity. Qed.

(* ------------------------------------------------------------------------- *)
(** ** Query filters against per-item evaluation *)
(* ------------------------------------------------------------------------- *)

(** C2 (amended). For every identity that is neither admin nor universal,
    the filter built for a resource kind carries the [id] constraint, equal
    to the assigned buildings, exactly when the assigned buildings are
    non-empty and the resource kind is [BUILDING]; it carries none when the
    assigned buildings are empty or the kind is another one.  On [BUILDING]
    the filter and [hasBuildingAccess] agree: for a context of that identity
    with a non-empty resource id and passing region and property-type tests,
    access is granted exactly when the resource id satisfies the filter's
    [id] constraint. *)
Theorem buildPermissionFilters_id_spec (user : SessionUser.t)
    (resource : ResourceType) :
  SessionUser.role user ≠ "admin" →
  SessionUser.universalAccess user = false →
  (Filters.id (buildPermissionFilters user resource)
   = Some (SessionUser.assignedBuildings user)
   ↔ SessionUser.assignedBuildings user ≠ [] ∧ resource = BUILDING)
  ∧ (Filters.id (buildPermissionFilters user resource) = None
     ↔ SessionUser.assignedBuildings user = [] ∨ resource ≠ BUILDING)
  ∧ (∀ ctx rid,
       PermissionContext.user ctx = user →
       PermissionContext.resourceId ctx = Some rid → rid ≠ "" →
       hasRegionAccess ctx = true → hasPropertyTypeAccess ctx = true →
       hasBuildingAccess ctx
       = match Filters.id (buildPermissionFilters user BUILDING) with
         | Some ids => includes ids rid
         | None => true
         end).
Proof.
  intros Hna%String.eqb_neq Hu.
  assert (Hid : ∀ res, Filters.id (buildPermissionFilters user res)
    = if (0 <? Z.of_nat (length (SessionUser.assignedBuildings user)))
         && ResourceType_eqb res BUILDING
      then Some (SessionUser.assignedBuildings user) else None).
  { intros res. unfold buildPermissionFilters. by rewrite Hna, Hu. }
  split; [|split].
  - rewrite Hid, <- length_pos_nonempty, <- ResourceType_eqb_eq.
    destruct (0 <? _), (ResourceType_eqb resource BUILDING); simpl;
      intuition discriminate.
  - rewrite Hid.
    destruct (0 <? _) eqn:Hlen; simpl.
    + apply length_pos_nonempty in Hlen.
      destruct (ResourceType_eqb resource BUILDING) eqn:Hres.
      * apply ResourceType_eqb_eq in Hres. split; [done|]. intros [?|?]; done.
      * split; [|done]. intros _. right. intros Heq.
        apply ResourceType_eqb_eq in Heq. congruence.
    + split; [|done]. intros _. left.
      destruct (SessionUser.assignedBuildings user) as [|b bs]; [done|].
      assert (b :: bs ≠ []) as Hne%length_pos_nonempty by done. congruence.
  - intros ctx rid <- Hrid Hne Hr Ht.
    rewrite hasBuildingAccess_unfold, Hna, Hu, Hr, Ht, Hid, Hrid. simpl.
    apply String.eqb_neq in Hne. rewrite Hne. simpl.
    by destruct (0 <? _).
Qed.

Lemma buildPermissionFilters_id_spec_witness :
  Filters.id (buildPermissionFilters brokerUser BUILDING)
  = Some ["building_123"; "building_456"]
  ∧ Filters.id (buildPermissionFilters brokerUser SUITE) = None.
Proof.
  split.
  - apply (buildPermissionFilters_id_spec brokerUser BUILDING);
      [discriminate | reflexivity | split; [discriminate | reflexivity]].
  - apply (buildPermissionFilters_id_spec brokerUser SUITE);
      [discriminate | reflexivity | right; discriminate].
Defined.

(** C2, the claim as stated fails on the resource kind [SUITE]: the broker's
    assigned buildings are non-empty, the filter built for suites carries no
    [id] constraint, and [hasBuildingAccess] (the condition of the broker's
    suite rule) does enforce the allow-list there. *)
Lemma buildPermissionFilters_suite_counterexample :
  SessionUser.role brokerUser ≠ "admin"
  ∧ SessionUser.universalAccess brokerUser = false
  ∧ SessionUser.assignedBuildings brokerUser ≠ []
  ∧ Filters.id (buildPermissionFilters brokerUser SUITE) = None
  ∧ hasRegionAccess unassignedSuiteRequest = true
  ∧ hasPropertyTypeAccess unassignedSuiteRequest = true
  ∧ hasBuildingAccess unassignedSuiteRequest = false
  ∧ ¬ (Filters.id (buildPermissionFilters brokerUser SUITE)
       = Some (SessionUser.assignedBuildings brokerUser)
       ↔ SessionUser.assignedBuildings brokerUser ≠ []).
Proof.
  repeat split; try done; try (vm_compute; reflexivity).
  intros [_ Hback]. discriminate Hback. done.
Qed.

(* ------------------------------------------------------------------------- *)
(** ** Cache keys *)
(* ------------------------------------------------------------------------- *)

Lemma prefix_cons_cons (x y : ascii) (s1 s2 : string) :
  String.prefix (String x s1) (String y s2)
  = Ascii.eqb x y && String.prefix s1 s2.
Proof.
  cbn [String.prefix]. destruct (Ascii.ascii_dec x y) as [->|Hne].
  - by rewrite Ascii.eqb_refl.
  - apply Ascii.eqb_neq in Hne. by rewrite Hne.
Qed.

Lemma append_cons (x : ascii) (a b : string) :
  String x a +:+ b = String x (a +:+ b).
Proof. reflexivity. Qed.

Lemma append_nil_l (b : string) : "" +:+ b = b.
Proof. reflexivity. Qed.

Lemma prefix_nil_l (s : string) : String.prefix "" s = true.
Proof. by destruct s. Qed.

Lemma prefix_app_same (a b c : string) :
  String.prefix (a +:+ b) (a +:+ c) = String.prefix b c.
Proof.
  induction a as [|x a IH]; [done|].
  by rewrite !append_cons, prefix_cons_cons, Ascii.eqb_refl.
Qed.

Lemma prefix_app_r (a c : string) : String.prefix a (a +:+ c) = true.
Proof.
  induction a as [|x a IH]; [apply prefix_nil_l|].
  by rewrite !append_cons, prefix_cons_cons, Ascii.eqb_refl.
Qed.

(** Every key starts with the identity's id followed by a colon. *)
Lemma getCacheKey_startsWith (ctx : PermissionContext.t) :
  startsWith (PermissionCache.getCacheKey ctx)
    (SessionUser.id (PermissionContext.user ctx) +:+ ":") = true.
Proof.
  unfold startsWith, PermissionCache.getCacheKey.
  rewrite prefix_app_same. apply (prefix_app_r ":").
Qed.

(** Two ids free of colons that agree up to the first colon are equal. *)
Lemma prefix_colon_inj (id1 id2 rest : string) :
  containsChar ":" id1 = false →
  containsChar ":" id2 = false →
  String.prefix (id1 +:+ ":") (id2 +:+ ":" +:+ rest) = true →
  id1 = id2.
Proof.
  revert id2. induction id1 as [|x id1 IH]; intros [|y id2] H1 H2 Hp.
  - done.
  - rewrite append_nil_l, !append_cons in Hp. cbn [containsChar] in H2.
    rewrite prefix_cons_cons, Ascii.eqb_sym in Hp.
    destruct (Ascii.eqb y ":"); discriminate.
  - rewrite append_nil_l, !append_cons in Hp. cbn [containsChar] in H1.
    rewrite prefix_cons_cons in Hp.
    destruct (Ascii.eqb x ":"); discriminate.
  - rewrite !append_cons in Hp. cbn [containsChar] in H1, H2.
    rewrite prefix_cons_cons in Hp. apply andb_prop in Hp as [Hxy Hp].
    apply Ascii.eqb_eq in Hxy as <-.
    destruct (Ascii.eqb x ":"); [discriminate|].
    f_equal. by apply IH.
Qed.

(* ------------------------------------------------------------------------- *)
(** ** Invalidation *)
(* ------------------------------------------------------------------------- *)

Section Invalidate.
Variable userId : string.

Local Abbreviation step := (PermissionCache.invalidateStep userId).

Lemma invalidate_fold_None (keys : list string) (cache : Cache) (k : string) :
  cache !! k = None → foldl step cache keys !! k = None.
Proof.
  revert cache. induction keys as [|x keys IH]; intros cache Hk; [done|].
  simpl. apply IH. unfold PermissionCache.invalidateStep.
  destruct (startsWith x _); [|done].
  destruct (decide (x = k)) as [->|Hne].
  - apply lookup_delete_eq.
  - by rewrite lookup_delete_ne.
Qed.

Lemma invalidate_fold_other (keys : list string) (cache : Cache) (k : string) :
  startsWith k (userId +:+ ":") = false →
  foldl step cache keys !! k = cache !! k.
Proof.
  intros Hk. revert cache.
  induction keys as [|x keys IH]; intros cache; [done|].
  simpl. rewrite IH. unfold PermissionCache.invalidateStep.
  destruct (startsWith x _) eqn:Hx; [|done].
  rewrite lookup_delete_ne; [done|]. intros ->. congruence.
Qed.

Lemma invalidate_fold_visited (keys : list string) (cache : Cache) (k : string) :
  startsWith k (userId +:+ ":") = true → k ∈ keys →
  foldl step cache keys !! k = None.
Proof.
  intros Hk. revert cache.
  induction keys as [|x keys IH]; intros cache Hin.
  - by apply elem_of_nil in Hin.
  - simpl. destruct (decide (x = k)) as [->|Hne].
    + apply invalidate_fold_None. unfold PermissionCache.invalidateStep.
      rewrite Hk. apply lookup_delete_eq.
    + apply IH. apply elem_of_cons in Hin as [->|Hin]; done.
Qed.

(** What a lookup sees after [invalidateUser]. *)
Lemma lookup_invalidateUser (cache : Cache) (k : string) :
  PermissionCache.invalidateUser userId cache !! k
  = if startsWith k (userId +:+ ":") then None else cache !! k.
Proof.
  unfold PermissionCache.invalidateUser.
  destruct (startsWith k _) eqn:Hk.
  - destruct (cache !! k) as [e|] eqn:He.
    + apply invalidate_fold_visited; [done|].
      apply list_elem_of_fmap. exists (k, e). split; [done|].
      by apply elem_of_map_to_list.
    + by apply invalidate_fold_None.
  - by apply invalidate_fold_other.
Qed.
End Invalidate.

(** C7. [invalidateUser identityId] removes every cache entry whose key
    starts with the identity's id and a colon, hence every entry stored for a
    context of that identity; the next [checkPermissionWithCache] for that
    identity misses, evaluates [checkPermission] on the context it is given
    and stores that decision. *)
Theorem invalidateUser_removes_identity (cache : Cache) (identityId : string) :
  (∀ key, startsWith key (identityId +:+ ":") = true →
          PermissionCache.invalidateUser identityId cache !! key = None)
  ∧ (∀ ctx nowGet nowSet,
       SessionUser.id (PermissionContext.user ctx) = identityId →
       PermissionCache.invalidateUser identityId cache
         !! PermissionCache.getCacheKey ctx = None
       ∧ PermissionCache.get nowGet ctx
           (PermissionCache.invalidateUser identityId cache)
         = (None, PermissionCache.invalidateUser identityId cache)
       ∧ checkPermissionWithCache nowGet nowSet ctx
           (PermissionCache.invalidateUser identityId cache)
         = (checkPermission ctx,
            PermissionCache.set nowSet ctx (checkPermission ctx)
              (PermissionCache.invalidateUser identityId cache))).
Proof.
  split.
  - intros key Hkey. by rewrite lookup_invalidateUser, Hkey.
  - intros ctx nowGet nowSet <-.
    assert (Hmiss : PermissionCache.invalidateUser
                      (SessionUser.id (PermissionContext.user ctx)) cache
                      !! PermissionCache.getCacheKey ctx = None).
    { by rewrite lookup_invalidateUser, getCacheKey_startsWith. }
    assert (Hget : PermissionCache.get nowGet ctx
                     (PermissionCache.invalidateUser
                        (SessionUser.id (PermissionContext.user ctx)) cache)
                   = (None, PermissionCache.invalidateUser
                              (SessionUser.id (PermissionContext.user ctx)) cache)).
    { unfold PermissionCache.get. by rewrite Hmiss. }
    split; [exact Hmiss|]. split; [exact Hget|].
    unfold checkPermissionWithCache. by rewrite Hget.
Qed.

(** C10. Frame of invalidation: for two distinct identity ids free of the
    colon character, [invalidateUser id1] leaves every entry whose key begins
    with [id2] and a colon as it was (present or not, with the same decision
    and timestamp); in particular every entry stored for a context of
    identity [id2]. *)
Theorem invalidateUser_frame (cache : Cache) (id1 id2 : string) :
  id1 ≠ id2 →
  containsChar ":" id1 = false →
  containsChar ":" id2 = false →
  (∀ rest, PermissionCache.invalidateUser id1 cache !! (id2 +:+ ":" +:+ rest)
           = cache !! (id2 +:+ ":" +:+ rest))
  ∧ (∀ ctx, SessionUser.id (PermissionContext.user ctx) = id2 →
            PermissionCache.invalidateUser id1 cache
              !! PermissionCache.getCacheKey ctx
            = cache !! PermissionCache.getCacheKey ctx).
Proof.
  intros Hne H1 H2.
  assert (Hrest : ∀ rest,
    PermissionCache.invalidateUser id1 cache !! (id2 +:+ ":" +:+ rest)
    = cache !! (id2 +:+ ":" +:+ rest)).
  { intros rest. rewrite lookup_invalidateUser.
    destruct (startsWith _ _) eqn:Hp; [|done].
    exfalso. apply Hne. by apply (prefix_colon_inj id1 id2 rest). }
  split; [exact Hrest|].
  intros ctx <-. apply Hrest.
Qed.

Lemma invalidateUser_frame_witness :
  PermissionCache.invalidateUser "user_1"
    (PermissionCache.set 0 emptyIdRequest true ∅)
    !! PermissionCache.getCacheKey emptyIdRequest
  = Some (CacheEntry.mk true 0).
Proof.
  pose proof (invalidateUser_frame
                (PermissionCache.set 0 emptyIdRequest true ∅)
                "user_1" "user_2") as Hframe.
  destruct Hframe as [_ Hctx]; [discriminate | reflexivity | reflexivity |].
  rewrite (Hctx emptyIdRequest eq_refl).
  apply lookup_insert_eq.
Defined.

(* ------------------------------------------------------------------------- *)
(** ** Time to live *)
(* ------------------------------------------------------------------------- *)

(** A hit of [get] comes from an entry no older than the TTL, and leaves the
    cache as it was. *)
Lemma get_Some_fresh (now : Z) (ctx : PermissionContext.t) (cache cache' : Cache)
    (d : bool) :
  PermissionCache.get now ctx cache = (Some d, cache') →
  ∃ e, cache !! PermissionCache.getCacheKey ctx = Some e
       ∧ CacheEntry.result e = d
       ∧ now - CacheEntry.timestamp e ≤ PermissionCache.TTL
       ∧ cache' = cache.
Proof.
  unfold PermissionCache.get.
  destruct (cache !! PermissionCache.getCacheKey ctx) as [e|]; [|done].
  destruct (now - CacheEntry.timestamp e >? PermissionCache.TTL) eqn:Hage;
    [done|].
  intros [= <- <-]. exists e. repeat split; try done.
  rewrite Z.gtb_ltb in Hage. by apply Z.ltb_ge in Hage.
Qed.

(** C6. The TTL is five minutes.  After [set] stores decision [D] for a
    context at time [t0], a [get] at time [t1] for any context with the same
    key returns [D] as long as the age [t1 - t0] does not exceed the TTL, and
    [checkPermissionWithCache] then returns [D] and leaves the cache
    untouched, whatever [checkPermission] would answer on the context it is
    given.  Once the age exceeds the TTL, [get] answers a miss and removes
    the entry, and [checkPermissionWithCache] evaluates [checkPermission]
    afresh.  No [get] ever returns a decision from an entry older than the
    TTL. *)
Theorem cache_ttl_coherence (cache : Cache) (ctx ctx' : PermissionContext.t)
    (D : bool) (t0 t1 t2 : Z) :
  PermissionCache.getCacheKey ctx' = PermissionCache.getCacheKey ctx →
  PermissionCache.TTL = 300000
  ∧ (t1 - t0 ≤ PermissionCache.TTL →
     PermissionCache.get t1 ctx' (PermissionCache.set t0 ctx D cache)
     = (Some D, PermissionCache.set t0 ctx D cache)
     ∧ checkPermissionWithCache t1 t2 ctx' (PermissionCache.set t0 ctx D cache)
       = (D, PermissionCache.set t0 ctx D cache))
  ∧ (t1 - t0 > PermissionCache.TTL →
     PermissionCache.get t1 ctx' (PermissionCache.set t0 ctx D cache)
     = (None, delete (PermissionCache.getCacheKey ctx)
                (PermissionCache.set t0 ctx D cache))
     ∧ delete (PermissionCache.getCacheKey ctx)
         (PermissionCache.set t0 ctx D cache)
         !! PermissionCache.getCacheKey ctx = None
     ∧ checkPermissionWithCache t1 t2 ctx' (PermissionCache.set t0 ctx D cache)
       = (checkPermission ctx',
          PermissionCache.set t2 ctx' (checkPermission ctx')
            (delete (PermissionCache.getCacheKey ctx)
               (PermissionCache.set t0 ctx D cache))))
  ∧ (∀ (c c' : Cache) now d,
       PermissionCache.get now ctx c = (Some d, c') →
       ∃ e, c !! PermissionCache.getCacheKey ctx = Some e
            ∧ CacheEntry.result e = d
            ∧ now - CacheEntry.timestamp e ≤ PermissionCache.TTL).
Proof.
  intros Hkey.
  assert (Hget : PermissionCache.get t1 ctx' (PermissionCache.set t0 ctx D cache)
    = if t1 - t0 >? PermissionCache.TTL
      then (None, delete (PermissionCache.getCacheKey ctx)
                    (PermissionCache.set t0 ctx D cache))
      else (Some D, PermissionCache.set t0 ctx D cache)).
  { unfold PermissionCache.get, PermissionCache.set.
    rewrite Hkey, lookup_insert_eq. done. }
  split; [reflexivity|]. split; [|split].
  - intros Hfresh.
    assert (Hage : (t1 - t0 >? PermissionCache.TTL) = false).
    { rewrite Z.gtb_ltb. apply Z.ltb_ge. exact Hfresh. }
    rewrite Hage in Hget. split; [exact Hget|].
    unfold checkPermissionWithCache. by rewrite Hget.
  - intros Hstale.
    assert (Hage : (t1 - t0 >? PermissionCache.TTL) = true).
    { rewrite Z.gtb_ltb. apply Z.ltb_lt. lia. }
    rewrite Hage in Hget. split; [exact Hget|].
    split; [apply lookup_delete_eq|].
    unfold checkPermissionWithCache. by rewrite Hget.
  - intros c c' now d Hhit.
    destruct (get_Some_fresh now ctx c c' d Hhit) as (e & He & Hd & Hage & _).
    by exists e.
Qed.

Lemma cache_ttl_coherence_witness :
  checkPermission demotedRequest = false
  ∧ checkPermissionWithCache 300000 300001 demotedRequest
      (PermissionCache.set 0 assignedBuildingRequest true ∅)
    = (true, PermissionCache.set 0 assignedBuildingRequest true ∅)
  ∧ PermissionCache.get 300001 demotedRequest
      (PermissionCache.set 0 assignedBuildingRequest true ∅)
    = (None, delete (PermissionCache.getCacheKey assignedBuildingRequest)
               (PermissionCache.set 0 assignedBuildingRequest true ∅)).
Proof.
  split; [vm_compute; reflexivity|].
  split.
  - apply (cache_ttl_coherence ∅ assignedBuildingRequest demotedRequest true
             0 300000 300001); [reflexivity|].
    unfold PermissionCache.TTL. lia.
  - apply (cache_ttl_coherence ∅ assignedBuildingRequest demotedRequest true
             0 300001 300001); [reflexivity|].
    unfold PermissionCache.TTL. lia.
Defined.

(* ------------------------------------------------------------------------- *)
(** ** Audit trail *)
(* ------------------------------------------------------------------------- *)

Lemma escalations_app (tr1 tr2 : list Effect) :
  escalations (tr1 ++ tr2) = (escalations tr1 + escalations tr2)%nat.
Proof. unfold escalations. by rewrite List.filter_app, length_app. Qed.

(** The escalations one logged denial adds to a trace. *)
Lemma logPermissionDenied_escalations (now : Z) (ctx : PermissionContext.t)
    (tr : list Effect) :
  escalations (logPermissionDenied now ctx tr).2
  = (escalations tr
     + if ResourceType_eqb (PermissionContext.resource ctx) ADMIN
          && negb (String.eqb
                     (SessionUser.role (PermissionContext.user ctx)) "admin")
       then 1 else 0)%nat.
Proof.
  unfold logPermissionDenied, isSupiciousActivity, alertSecurityTeam, bind,
    ret, emit. simpl.
  destruct (ResourceType_eqb _ ADMIN && negb _); simpl;
    rewrite !escalations_app;
    change (escalations [ConsoleWarn _ _]) with 0%nat;
    try change (escalations [ConsoleError _ _]) with 1%nat; lia.
Qed.

Lemma suspicious_spec (ctx : PermissionContext.t) :
  ResourceType_eqb (PermissionContext.resource ctx) ADMIN
  && negb (String.eqb (SessionUser.role (PermissionContext.user ctx)) "admin")
  = true
  ↔ PermissionContext.resource ctx = ADMIN
    ∧ SessionUser.role (PermissionContext.user ctx) ≠ "admin".
Proof.
  by rewrite andb_true_iff, negb_true_iff, ResourceType_eqb_eq, String.eqb_neq.
Qed.

(** C8. One call of [logPermissionDenied] raises exactly one escalation when
    the resource kind is [ADMIN] and the identity's role is not admin, and
    none otherwise (another resource kind, or an admin identity).  Nothing
    is deduplicated: the same suspicious denial logged [n] times in a row
    raises [n] escalations. *)
Theorem logPermissionDenied_escalation (ctx : PermissionContext.t) (now : Z)
    (tr : list Effect) :
  (escalations (logPermissionDenied now ctx tr).2 = S (escalations tr)
   ↔ PermissionContext.resource ctx = ADMIN
     ∧ SessionUser.role (PermissionContext.user ctx) ≠ "admin")
  ∧ (escalations (logPermissionDenied now ctx tr).2 = escalations tr
     ↔ PermissionContext.resource ctx ≠ ADMIN
       ∨ SessionUser.role (PermissionContext.user ctx) = "admin")
  ∧ (PermissionContext.resource ctx = ADMIN →
     SessionUser.role (PermissionContext.user ctx) ≠ "admin" →
     ∀ times,
       escalations (logDenials times ctx tr).2
       = (escalations tr + length times)%nat).
Proof.
  pose proof (suspicious_spec ctx) as Hs.
  split; [|split].
  - rewrite logPermissionDenied_escalations.
    destruct (ResourceType_eqb _ ADMIN && negb _).
    + split; [intros _; by apply Hs | intros _; lia].
    + split; [intros; lia | intros Hp; apply Hs in Hp; discriminate].
  - rewrite logPermissionDenied_escalations.
    destruct (ResourceType_eqb _ ADMIN && negb _).
    + split; [intros; lia|]. destruct Hs as [[Hres Hrole] _]; [done|].
      intros [?|?]; done.
    + split; [|intros; lia]. intros _.
      destruct (decide (PermissionContext.resource ctx = ADMIN)) as [Hres|];
        [|by left].
      destruct (decide (SessionUser.role (PermissionContext.user ctx) = "admin"))
        as [|Hrole]; [by right|].
      assert (false = true) by (by apply Hs). discriminate.
  - intros Hres Hrole times. revert tr.
    induction times as [|t times IH]; intros tr; simpl; [lia|].
    unfold bind at 1.
    destruct (logPermissionDenied t ctx tr) as [[] tr'] eqn:Hlog.
    rewrite IH.
    pose proof (logPermissionDenied_escalations t ctx tr) as Hone.
    rewrite Hlog in Hone. simpl in Hone. rewrite Hone.
    assert (ResourceType_eqb (PermissionContext.resource ctx) ADMIN
            && negb (String.eqb
                       (SessionUser.role (PermissionContext.user ctx)) "admin")
            = true) as -> by (by apply Hs).
    lia.
Qed.

(* ------------------------------------------------------------------------- *)
(** ** The worked example of the specification *)
(* ------------------------------------------------------------------------- *)

(** The broker of [loadUserPermissions] may read an assigned office building
    in South Florida, may not read a building in the Carolinas, and may not
    delete anything. *)
Example broker_reads_assigned_building :
  checkPermission
    (PermissionContext.mk brokerUser BUILDING READ (Some "building_123")
       (Some officeMetadata)) = true.
Proof. vm_compute. reflexivity. Qed.

Example broker_region_mismatch :
  checkPermission
    (PermissionContext.mk brokerUser BUILDING READ (Some "building_999")
       (Some (<["regionId" := JStr "carolinas"]> officeMetadata))) = false.
Proof. vm_compute. reflexivity. Qed.

Example broker_cannot_delete :
  checkPermission
    (PermissionContext.mk brokerUser BUILDING DELETE (Some "building_123")
       (Some officeMetadata)) = false.
Proof. vm_compute. reflexivity. Qed.

Example broker_cache_key :
  PermissionCache.getCacheKey assignedBuildingRequest
  = "user_1:building:read:building_123".
Proof. reflexivity. Qed.

(* ========================================================================= *)
(** * Further properties of the code *)
(* ========================================================================= *)

(* ------------------------------------------------------------------------- *)
(** ** The decision table *)
(* ------------------------------------------------------------------------- *)

(** Evaluates the filter and the loop on a concrete role, resource kind and
    action, leaving the conditions of the rules as they are. *)
Ltac table_case :=
  cbn -[hasBuildingAccess hasRegionAccess hasPropertyTypeAccess];
  try reflexivity;
  repeat match goal with
         | |- context [if ?b then _ else _] => destruct b
         end;
  reflexivity.

(** [checkPermission], rule by rule: what the filter and the loop compute
    for each role of the table. *)
Lemma checkPermission_table (ctx : PermissionContext.t) :
  checkPermission ctx =
  let role := SessionUser.role (PermissionContext.user ctx) in
  let action := PermissionContext.action ctx in
  if String.eqb role "admin" then
    match PermissionContext.resource ctx with
    | BUILDING => true
    | TENANT | ADMIN => actionsInclude [READ; CREATE; UPDATE; DELETE] action
    | _ => false
    end
  else if String.eqb role "researcher" then
    match PermissionContext.resource ctx with
    | BUILDING => actionsInclude [READ; UPDATE; EXPORT_ACTION] action
                  && (hasRegionAccess ctx && hasPropertyTypeAccess ctx)
    | SUITE => actionsInclude [READ; CREATE; UPDATE] action
               && hasBuildingAccess ctx
    | TENANT => actionsInclude [READ; CREATE; UPDATE] action
    | _ => false
    end
  else if String.eqb role "broker" then
    match PermissionContext.resource ctx with
    | BUILDING => actionsInclude [READ; EXPORT_ACTION] action
                  && hasBuildingAccess ctx
    | SUITE => actionsInclude [READ] action && hasBuildingAccess ctx
    | TENANT => actionsInclude [READ] action
    | _ => false
    end
  else if String.eqb role "viewer" then
    match PermissionContext.resource ctx with
    | BUILDING | SUITE => actionsInclude [READ] action && hasBuildingAccess ctx
    | _ => false
    end
  else false.
Proof.
  destruct ctx as [[uid email role regions pts assigned univ last]
                     resource action rid md].
  unfold checkPermission, applicableRules, PERMISSION_RULES.
  cbn -[hasBuildingAccess hasRegionAccess hasPropertyTypeAccess String.eqb].
  destruct (String.eqb role "admin") eqn:Ha.
  { apply String.eqb_eq in Ha. subst role. by destruct resource, action. }
  destruct (String.eqb role "researcher") eqn:Hr.
  { apply String.eqb_eq in Hr. subst role.
    destruct resource, action; table_case. }
  destruct (String.eqb role "broker") eqn:Hb.
  { apply String.eqb_eq in Hb. subst role.
    destruct resource, action; table_case. }
  destruct (String.eqb role "viewer") eqn:Hv.
  { apply String.eqb_eq in Hv. subst role.
    destruct resource, action; table_case. }
  rewrite String.eqb_sym in Ha, Hr, Hb, Hv.
  by rewrite Ha, Hr, Hb, Hv.
Qed.

(** Splits a granted check [H : checkPermission ctx = true] into the rows of
    the decision table that grant: the role test that holds is [Hrole], the
    resource kind and the action are [Hres] and [Hact], and [H] is what is
    left of the row's condition. *)
Ltac granted_rows ctx H Hrole Hres Hact :=
  rewrite checkPermission_table in H; cbv zeta in H;
  destruct (String.eqb (SessionUser.role (PermissionContext.user ctx)) "admin")
    eqn:Hrole;
  [| clear Hrole;
     destruct (String.eqb (SessionUser.role (PermissionContext.user ctx))
                 "researcher") eqn:Hrole;
     [| clear Hrole;
        destruct (String.eqb (SessionUser.role (PermissionContext.user ctx))
                    "broker") eqn:Hrole;
        [| clear Hrole;
           destruct (String.eqb (SessionUser.role (PermissionContext.user ctx))
                       "viewer") eqn:Hrole;
           [| discriminate H]]]];
  apply String.eqb_eq in Hrole;
  destruct (PermissionContext.resource ctx) eqn:Hres;
  destruct (PermissionContext.action ctx) eqn:Hact;
  cbn -[hasBuildingAccess hasRegionAccess hasPropertyTypeAccess] in H;
  try discriminate H.

(** X1. What an admin may do: every action on buildings, and read, create,
    update and delete on tenants and on the administrative resource; nothing
    else, whatever the identity's scopes, flags and the metadata. *)
Theorem admin_decisions (ctx : PermissionContext.t) :
  SessionUser.role (PermissionContext.user ctx) = "admin" →
  (checkPermission ctx = true ↔
   PermissionContext.resource ctx = BUILDING
   ∨ ((PermissionContext.resource ctx = TENANT
       ∨ PermissionContext.resource ctx = ADMIN)
      ∧ PermissionContext.action ctx ∈ [READ; CREATE; UPDATE; DELETE])).
Proof.
  intros Hrole. rewrite checkPermission_table. cbv zeta. rewrite Hrole.
  cbn [String.eqb Ascii.eqb Bool.eqb]. rewrite <- actionsInclude_spec.
  destruct (PermissionContext.resource ctx); split;
    try done; try (by left); try (by intros [? | [[? | ?] _]]);
    try (intros ?; right; split; [by (left + right) | done]);
    by intros [? | [_ ?]].
Qed.

Lemma admin_decisions_witness :
  checkPermission (requestContext adminUser TENANT DELETE None) = true.
Proof.
  apply (admin_decisions (requestContext adminUser TENANT DELETE None));
    [reflexivity|].
  right. split; [by left|]. set_solver.
Defined.

(** X2. Deleting and sharing are granted to the admin role alone, and
    sharing on buildings alone: no context of another role passes
    [checkPermission] with one of these actions. *)
Theorem destructive_actions_admin_only (ctx : PermissionContext.t) :
  checkPermission ctx = true →
  PermissionContext.action ctx = DELETE ∨ PermissionContext.action ctx = SHARE →
  SessionUser.role (PermissionContext.user ctx) = "admin"
  ∧ (PermissionContext.action ctx = SHARE →
     PermissionContext.resource ctx = BUILDING).
Proof.
  intros H Hact'.
  granted_rows ctx H Hrole Hres Hact;
    destruct Hact' as [Hd | Hs]; try discriminate; done.
Qed.

Lemma destructive_actions_admin_only_witness :
  SessionUser.role
    (PermissionContext.user (requestContext adminUser BUILDING SHARE None))
  = "admin".
Proof.
  apply (destructive_actions_admin_only
           (requestContext adminUser BUILDING SHARE None));
    [vm_compute; reflexivity | by right].
Defined.

(** X3. Viewers and brokers never modify: a granted check for the viewer
    role is a read of a building or a suite, and a granted check for the
    broker role is a read, or an export of a building. *)
Theorem viewer_broker_read_only (ctx : PermissionContext.t) :
  checkPermission ctx = true →
  (SessionUser.role (PermissionContext.user ctx) = "viewer" →
   PermissionContext.action ctx = READ
   ∧ (PermissionContext.resource ctx = BUILDING
      ∨ PermissionContext.resource ctx = SUITE))
  ∧ (SessionUser.role (PermissionContext.user ctx) = "broker" →
     PermissionContext.action ctx = READ
     ∨ (PermissionContext.action ctx = EXPORT_ACTION
        ∧ PermissionContext.resource ctx = BUILDING)).
Proof.
  intros H.
  granted_rows ctx H Hrole Hres Hact; rewrite Hrole;
    split; intros Hr; try discriminate Hr; auto.
Qed.

Lemma viewer_broker_read_only_witness :
  PermissionContext.action
    (PermissionContext.mk brokerUser BUILDING EXPORT_ACTION
       (Some "building_123") (Some officeMetadata)) = READ
  ∨ (PermissionContext.action
       (PermissionContext.mk brokerUser BUILDING EXPORT_ACTION
          (Some "building_123") (Some officeMetadata)) = EXPORT_ACTION
     ∧ PermissionContext.resource
         (PermissionContext.mk brokerUser BUILDING EXPORT_ACTION
            (Some "building_123") (Some officeMetadata)) = BUILDING).
Proof.
  apply (viewer_broker_read_only
           (PermissionContext.mk brokerUser BUILDING EXPORT_ACTION
              (Some "building_123") (Some officeMetadata)));
    [vm_compute; reflexivity | reflexivity].
Defined.

(* ------------------------------------------------------------------------- *)
(** ** Roles and scopes *)
(* ------------------------------------------------------------------------- *)

(** The scope predicates do not look at the role. *)
Lemma hasRegionAccess_withRole (role : UserRole) (ctx : PermissionContext.t) :
  hasRegionAccess (withUser (withRole role (PermissionContext.user ctx)) ctx)
  = hasRegionAccess ctx.
Proof. reflexivity. Qed.

Lemma hasPropertyTypeAccess_withRole (role : UserRole)
    (ctx : PermissionContext.t) :
  hasPropertyTypeAccess
    (withUser (withRole role (PermissionContext.user ctx)) ctx)
  = hasPropertyTypeAccess ctx.
Proof. reflexivity. Qed.

(** [hasBuildingAccess] only asks whether the role is admin. *)
Lemma hasBuildingAccess_withRole (role : UserRole) (ctx : PermissionContext.t) :
  String.eqb role "admin"
  = String.eqb (SessionUser.role (PermissionContext.user ctx)) "admin" →
  hasBuildingAccess (withUser (withRole role (PermissionContext.user ctx)) ctx)
  = hasBuildingAccess ctx.
Proof.
  intros Hsame. rewrite !hasBuildingAccess_unfold.
  rewrite hasRegionAccess_withRole, hasPropertyTypeAccess_withRole.
  cbn [withUser withRole PermissionContext.user PermissionContext.resourceId
       SessionUser.role SessionUser.universalAccess
       SessionUser.assignedBuildings].
  by rewrite Hsame.
Qed.

(** For a role other than admin, building access implies both scope tests. *)
Lemma hasBuildingAccess_scoped (ctx : PermissionContext.t) :
  SessionUser.role (PermissionContext.user ctx) ≠ "admin" →
  hasBuildingAccess ctx = true →
  hasRegionAccess ctx = true ∧ hasPropertyTypeAccess ctx = true.
Proof.
  intros Hna%String.eqb_neq. rewrite hasBuildingAccess_unfold, Hna. simpl.
  destruct (SessionUser.universalAccess (PermissionContext.user ctx)) eqn:Hu.
  - intros _. by rewrite hasRegionAccess_unfold, hasPropertyTypeAccess_unfold, Hu.
  - simpl. intros [[? ?]%andb_prop _]%andb_prop. done.
Qed.

(** X4. The three scoped roles are ordered: whatever a viewer is granted,
    the same identity is granted as a broker, and whatever a broker is
    granted, the same identity is granted as a researcher (same scopes, same
    request). *)
Theorem role_hierarchy (ctx : PermissionContext.t) :
  checkPermission ctx = true →
  (SessionUser.role (PermissionContext.user ctx) = "viewer" →
   checkPermission (withUser (withRole "broker" (PermissionContext.user ctx)) ctx)
   = true)
  ∧ (SessionUser.role (PermissionContext.user ctx) = "broker" →
     checkPermission
       (withUser (withRole "researcher" (PermissionContext.user ctx)) ctx)
     = true).
Proof.
  intros H. split; intros Hrole.
  - assert (Hb : hasBuildingAccess
                   (withUser (withRole "broker" (PermissionContext.user ctx)) ctx)
                 = hasBuildingAccess ctx).
    { apply hasBuildingAccess_withRole. by rewrite Hrole. }
    rewrite checkPermission_table in H |- *. cbv zeta in H |- *.
    rewrite Hrole in H. rewrite Hb.
    cbn [withUser withRole PermissionContext.user PermissionContext.resource
         PermissionContext.action SessionUser.role] in H |- *.
    destruct (PermissionContext.resource ctx), (PermissionContext.action ctx);
      cbn -[hasBuildingAccess] in H |- *; done.
  - assert (Hb : hasBuildingAccess
                   (withUser (withRole "researcher" (PermissionContext.user ctx))
                      ctx)
                 = hasBuildingAccess ctx).
    { apply hasBuildingAccess_withRole. by rewrite Hrole. }
    assert (Hs : hasBuildingAccess ctx = true →
                 hasRegionAccess ctx && hasPropertyTypeAccess ctx = true).
    { intros Hba. apply hasBuildingAccess_scoped in Hba as [-> ->]; [done|].
      by rewrite Hrole. }
    rewrite checkPermission_table in H |- *. cbv zeta in H |- *.
    rewrite Hrole in H. rewrite Hb.
    rewrite hasRegionAccess_withRole, hasPropertyTypeAccess_withRole.
    cbn [withUser withRole PermissionContext.user PermissionContext.resource
         PermissionContext.action SessionUser.role] in H |- *.
    destruct (PermissionContext.resource ctx), (PermissionContext.action ctx);
      cbn -[hasBuildingAccess hasRegionAccess hasPropertyTypeAccess] in H |- *;
      try done; by apply Hs.
Qed.

Lemma role_hierarchy_witness :
  checkPermission
    (withUser (withRole "researcher" brokerUser) assignedBuildingRequest)
  = true.
Proof.
  apply (role_hierarchy assignedBuildingRequest);
    [vm_compute; reflexivity | reflexivity].
Defined.

(** X5. Tenant decisions are not scoped: on the resource kind [TENANT] the
    decision depends on the role and the action alone, not on regions,
    property types, assigned buildings, universal access, the resource id or
    the metadata. *)
Theorem tenant_decisions_unscoped (ctx ctx' : PermissionContext.t) :
  PermissionContext.resource ctx = TENANT →
  PermissionContext.resource ctx' = TENANT →
  SessionUser.role (PermissionContext.user ctx)
  = SessionUser.role (PermissionContext.user ctx') →
  PermissionContext.action ctx = PermissionContext.action ctx' →
  checkPermission ctx = checkPermission ctx'.
Proof.
  intros Hres Hres' Hrole Hact.
  rewrite !checkPermission_table. cbv zeta.
  by rewrite Hres, Hres', Hrole, Hact.
Qed.

Lemma tenant_decisions_unscoped_witness :
  checkPermission
    (PermissionContext.mk brokerUser TENANT READ (Some "tenant_1") None)
  = checkPermission
      (PermissionContext.mk
         (SessionUser.mk "user_4" "other@example.com" "broker" [] [] [] false 0)
         TENANT READ None (Some officeMetadata)).
Proof.
  by apply (tenant_decisions_unscoped
              (PermissionContext.mk brokerUser TENANT READ (Some "tenant_1") None)
              (PermissionContext.mk
                 (SessionUser.mk "user_4" "other@example.com" "broker"
                    [] [] [] false 0)
                 TENANT READ None (Some officeMetadata))).
Defined.

(** A granted check on a building or a suite, for a role other than admin,
    passed both scope tests. *)
Lemma checkPermission_granted_scoped (ctx : PermissionContext.t) :
  checkPermission ctx = true →
  SessionUser.role (PermissionContext.user ctx) ≠ "admin" →
  PermissionContext.resource ctx = BUILDING
  ∨ PermissionContext.resource ctx = SUITE →
  hasRegionAccess ctx = true ∧ hasPropertyTypeAccess ctx = true.
Proof.
  intros H Hna Hkind.
  granted_rows ctx H Hrole Hres Hact; try congruence;
    try (destruct Hkind; discriminate);
    try (by apply andb_prop in H);
    by apply hasBuildingAccess_scoped.
Qed.

(** X6. Buildings and suites are granted to a role other than admin only
    inside the identity's scope: a granted check implies that the region
    test and the property-type test both hold.  Hence a request whose
    metadata is missing is refused unless the identity is universal or holds
    the wildcards. *)
Theorem scoped_grants_need_scope (ctx : PermissionContext.t) :
  checkPermission ctx = true →
  SessionUser.role (PermissionContext.user ctx) ≠ "admin" →
  PermissionContext.resource ctx = BUILDING
  ∨ PermissionContext.resource ctx = SUITE →
  hasRegionAccess ctx = true ∧ hasPropertyTypeAccess ctx = true.
Proof.
  intros H Hna Hkind.
  assert (Hscoped : ∀ c, SessionUser.role (PermissionContext.user c) ≠ "admin" →
                         hasBuildingAccess c = true →
                         hasRegionAccess c = true
                         ∧ hasPropertyTypeAccess c = true)
    by exact hasBuildingAccess_scoped.
  rewrite checkPermission_table in H. cbv zeta in H.
  apply String.eqb_neq in Hna as Hna'. rewrite Hna' in H.
  destruct Hkind as [Hres | Hres]; rewrite Hres in H;
    repeat match type of H with
           | (if ?b then _ else _) = true => destruct b
           end;
    try discriminate H;
    apply andb_prop in H as [_ H];
    first [by apply andb_prop in H | by apply Hscoped].
Qed.

Lemma scoped_grants_need_scope_witness :
  hasRegionAccess assignedBuildingRequest = true
  ∧ hasPropertyTypeAccess assignedBuildingRequest = true.
Proof.
  apply (scoped_grants_need_scope assignedBuildingRequest);
    [vm_compute; reflexivity | discriminate | by left].
Defined.

(** The region test survives a growth of the identity's regions. *)
Lemma hasRegionAccess_mono (ctx : PermissionContext.t) (user' : SessionUser.t) :
  SessionUser.universalAccess user'
  = SessionUser.universalAccess (PermissionContext.user ctx) →
  SessionUser.regions (PermissionContext.user ctx) ⊆ SessionUser.regions user' →
  hasRegionAccess ctx = true → hasRegionAccess (withUser user' ctx) = true.
Proof.
  intros Hu Hsub. rewrite !hasRegionAccess_unfold.
  cbn [withUser PermissionContext.user PermissionContext.metadata].
  rewrite Hu, !orb_true_iff, !regionsInclude_spec.
  intros [[? | (r & Hr & ?)] | (r & Hr & ?)]; eauto 8.
Qed.

Lemma hasPropertyTypeAccess_mono (ctx : PermissionContext.t)
    (user' : SessionUser.t) :
  SessionUser.universalAccess user'
  = SessionUser.universalAccess (PermissionContext.user ctx) →
  SessionUser.propertyTypes (PermissionContext.user ctx)
    ⊆ SessionUser.propertyTypes user' →
  hasPropertyTypeAccess ctx = true →
  hasPropertyTypeAccess (withUser user' ctx) = true.
Proof.
  intros Hu Hsub. rewrite !hasPropertyTypeAccess_unfold.
  cbn [withUser PermissionContext.user PermissionContext.metadata].
  rewrite Hu, !orb_true_iff, !propertyTypesInclude_spec.
  intros [[? | (p & Hp & ?)] | (p & Hp & ?)]; eauto 8.
Qed.

Lemma hasBuildingAccess_mono (ctx : PermissionContext.t) (user' : SessionUser.t) :
  SessionUser.role user' = SessionUser.role (PermissionContext.user ctx) →
  SessionUser.universalAccess user'
  = SessionUser.universalAccess (PermissionContext.user ctx) →
  SessionUser.assignedBuildings user'
  = SessionUser.assignedBuildings (PermissionContext.user ctx) →
  SessionUser.regions (PermissionContext.user ctx) ⊆ SessionUser.regions user' →
  SessionUser.propertyTypes (PermissionContext.user ctx)
    ⊆ SessionUser.propertyTypes user' →
  hasBuildingAccess ctx = true → hasBuildingAccess (withUser user' ctx) = true.
Proof.
  intros Hrole Hu Has Hreg Hpt. rewrite !hasBuildingAccess_unfold.
  cbn [withUser PermissionContext.user PermissionContext.resourceId].
  rewrite Hrole, Hu, Has, !orb_true_iff, !andb_true_iff.
  intros [? | [[Hr Ht] Hal]]; [by left|]. right.
  split; [split|done].
  - by apply hasRegionAccess_mono.
  - by apply hasPropertyTypeAccess_mono.
Qed.

(** X7. Widening the scopes never revokes: if an identity is granted a
    request, the identity with the same role, flag and assigned buildings
    and with more regions and property types is granted it too. *)
Theorem checkPermission_scope_monotone (ctx : PermissionContext.t)
    (user' : SessionUser.t) :
  SessionUser.role user' = SessionUser.role (PermissionContext.user ctx) →
  SessionUser.universalAccess user'
  = SessionUser.universalAccess (PermissionContext.user ctx) →
  SessionUser.assignedBuildings user'
  = SessionUser.assignedBuildings (PermissionContext.user ctx) →
  SessionUser.regions (PermissionContext.user ctx) ⊆ SessionUser.regions user' →
  SessionUser.propertyTypes (PermissionContext.user ctx)
    ⊆ SessionUser.propertyTypes user' →
  checkPermission ctx = true → checkPermission (withUser user' ctx) = true.
Proof.
  intros Hrole Hu Has Hreg Hpt H.
  pose proof (hasBuildingAccess_mono ctx user' Hrole Hu Has Hreg Hpt) as Hb.
  pose proof (hasRegionAccess_mono ctx user' Hu Hreg) as Hr.
  pose proof (hasPropertyTypeAccess_mono ctx user' Hu Hpt) as Ht.
  rewrite checkPermission_table in H |- *. cbv zeta in H |- *.
  cbn [withUser PermissionContext.user PermissionContext.resource
       PermissionContext.action] in H |- *.
  rewrite Hrole.
  destruct (String.eqb _ "admin"); [done|].
  destruct (String.eqb _ "researcher").
  { destruct (PermissionContext.resource ctx); try done;
      apply andb_prop in H as [-> H]; simpl.
    - apply andb_prop in H as [? ?]. by rewrite Hr, Ht.
    - by apply Hb. }
  destruct (String.eqb _ "broker").
  { destruct (PermissionContext.resource ctx); try done;
      apply andb_prop in H as [-> H]; simpl; by apply Hb. }
  destruct (String.eqb _ "viewer"); [|done].
  destruct (PermissionContext.resource ctx); try done;
    apply andb_prop in H as [-> H]; simpl; by apply Hb.
Qed.

Lemma checkPermission_scope_monotone_witness :
  checkPermission
    (withUser
       (SessionUser.mk "user_1" "user@example.com" "broker"
          [CAROLINAS; SOUTH_FLORIDA; CENTRAL_FLORIDA] [INDUSTRIAL; OFFICE]
          ["building_123"; "building_456"] false 0)
       assignedBuildingRequest) = true.
Proof.
  apply (checkPermission_scope_monotone assignedBuildingRequest);
    [reflexivity | reflexivity | reflexivity | | | vm_compute; reflexivity].
  - change ([SOUTH_FLORIDA; CENTRAL_FLORIDA]
            ⊆ [CAROLINAS; SOUTH_FLORIDA; CENTRAL_FLORIDA]).
    intros x. rewrite !elem_of_cons. tauto.
  - change ([OFFICE] ⊆ [INDUSTRIAL; OFFICE]).
    intros x. rewrite !elem_of_cons. tauto.
Defined.

(* ------------------------------------------------------------------------- *)
(** ** Filters *)
(* ------------------------------------------------------------------------- *)

(** X8. On buildings the query filter and the per-item test select the same
    rows.  For every identity and every building row with a non-empty id,
    region [r] and property type [p], [hasBuildingAccess] on that row holds
    exactly when the row satisfies each constraint that
    [buildPermissionFilters] produces for [BUILDING] (an absent constraint
    being satisfied by every row). *)
Theorem filters_select_accessible_buildings (user : SessionUser.t)
    (action : ActionType) (rid : string) (r : Region) (p : PropertyType)
    (md : Metadata) :
  rid ≠ "" →
  md !! "regionId" = Some (JStr (Region_str r)) →
  md !! "propertyType" = Some (JStr (PropertyType_str p)) →
  (hasBuildingAccess
     (PermissionContext.mk user BUILDING action (Some rid) (Some md)) = true
   ↔ (∀ rs, Filters.regionId (buildPermissionFilters user BUILDING) = Some rs →
            r ∈ rs)
     ∧ (∀ ps, Filters.propertyType (buildPermissionFilters user BUILDING)
              = Some ps → p ∈ ps)
     ∧ (∀ ids, Filters.id (buildPermissionFilters user BUILDING) = Some ids →
               rid ∈ ids)).
Proof.
  intros Hrid Hreg Hpt.
  rewrite hasBuildingAccess_unfold, hasRegionAccess_unfold,
    hasPropertyTypeAccess_unfold.
  unfold buildPermissionFilters.
  cbn [PermissionContext.user PermissionContext.metadata
       PermissionContext.resourceId metadataProp].
  rewrite Hreg, Hpt. cbn [default option_rect from_option].
  destruct (String.eqb (SessionUser.role user) "admin"
            || SessionUser.universalAccess user) eqn:Hfree.
  { cbn [orb Filters.empty Filters.regionId Filters.propertyType Filters.id].
    split; [|done]. intros _. repeat split; intros ? [=]. }
  apply orb_false_elim in Hfree as [Hna Hu]. rewrite ?Hna, ?Hu.
  cbn [orb Filters.regionId Filters.propertyType Filters.id]. unfold id.
  replace (ResourceType_eqb BUILDING BUILDING) with true by reflexivity.
  rewrite andb_true_r.
  assert (Hid : truthyId (Some rid) = true).
  { apply truthyId_spec. by exists rid. }
  rewrite Hid, andb_true_l.
  assert (Hr : regionsInclude (SessionUser.regions user) (JStr "all_regions")
               || regionsInclude (SessionUser.regions user)
                    (JStr (Region_str r)) = true
               ↔ ∀ rs, (if negb (regionsInclude (SessionUser.regions user)
                                   (JStr "all_regions"))
                        then Some (SessionUser.regions user) else None)
                       = Some rs → r ∈ rs).
  { destruct (regionsInclude _ (JStr "all_regions")); cbn [orb negb].
    - split; [by intros _ ? [=] | done].
    - rewrite regionsInclude_spec. split.
      + intros (r' & Hin & [= Heq]) rs [= <-].
        by rewrite (Region_str_inj r r' Heq).
      + intros Hall. exists r. split; [by apply Hall | done]. }
  assert (Hp : propertyTypesInclude (SessionUser.propertyTypes user)
                 (JStr "all_types")
               || propertyTypesInclude (SessionUser.propertyTypes user)
                    (JStr (PropertyType_str p)) = true
               ↔ ∀ ps, (if negb (propertyTypesInclude
                                   (SessionUser.propertyTypes user)
                                   (JStr "all_types"))
                        then Some (SessionUser.propertyTypes user) else None)
                       = Some ps → p ∈ ps).
  { destruct (propertyTypesInclude _ (JStr "all_types")); cbn [orb negb].
    - split; [by intros _ ? [=] | done].
    - rewrite propertyTypesInclude_spec. split.
      + intros (p' & Hin & [= Heq]) ps [= <-].
        by rewrite (PropertyType_str_inj p p' Heq).
      + intros Hall. exists p. split; [by apply Hall | done]. }
  assert (Hal : (if 0 <? Z.of_nat (length (SessionUser.assignedBuildings user))
                 then includes (SessionUser.assignedBuildings user) rid
                 else true) = true
                ↔ ∀ ids,
                    (if 0 <? Z.of_nat
                                (length (SessionUser.assignedBuildings user))
                     then Some (SessionUser.assignedBuildings user) else None)
                    = Some ids → rid ∈ ids).
  { destruct (0 <? _).
    - rewrite includes_spec. split; [by intros ? ? [= <-] | intros Hall].
      by apply Hall.
    - split; [by intros _ ? [=] | done]. }
  rewrite !andb_true_iff, Hr, Hp, Hal. tauto.
Qed.

Lemma filters_select_accessible_buildings_witness :
  hasBuildingAccess
    (PermissionContext.mk brokerUser BUILDING READ (Some "building_123")
       (Some officeMetadata)) = true.
Proof.
  apply (filters_select_accessible_buildings brokerUser READ "building_123"
           SOUTH_FLORIDA OFFICE officeMetadata);
    [discriminate | reflexivity | reflexivity |].
  repeat split; intros ? [= <-]; simpl; set_solver.
Defined.

(** X9. [filterByPermission] refuses a request without identity with 401
    and leaves it untouched; otherwise it calls [next()] after attaching the
    filter of the identity, and that filter is the unrestricted one exactly
    when the identity is admin, or universal, or holds both wildcards and
    has no assigned building that applies (none at all, or a resource kind
    other than [BUILDING]). *)
Theorem filterByPermission_unrestricted (resource : ResourceType)
    (req : Request.t) :
  (Request.user req = None →
   filterByPermission resource req
   = (Json 401 [("error", "Authentication required")], req))
  ∧ (∀ user, Request.user req = Some user →
       (filterByPermission resource req).1 = Next
       ∧ Request.permissionFilters (filterByPermission resource req).2
         = Some (buildPermissionFilters user resource)
       ∧ (buildPermissionFilters user resource = Filters.empty
          ↔ SessionUser.role user = "admin"
            ∨ SessionUser.universalAccess user = true
            ∨ (ALL_REGIONS ∈ SessionUser.regions user
               ∧ ALL_TYPES ∈ SessionUser.propertyTypes user
               ∧ (SessionUser.assignedBuildings user = []
                  ∨ resource ≠ BUILDING)))).
Proof.
  unfold filterByPermission. split.
  - by intros ->.
  - intros user ->. split; [done|]. split; [done|].
    unfold buildPermissionFilters.
    destruct (String.eqb (SessionUser.role user) "admin") eqn:Ha.
    { apply String.eqb_eq in Ha. simpl. split; [by left | done]. }
    apply String.eqb_neq in Ha.
    destruct (SessionUser.universalAccess user) eqn:Hu.
    { simpl. split; [by right; left | done]. }
    simpl.
    pose proof (regionsInclude_wildcard (SessionUser.regions user)) as HR.
    pose proof (propertyTypesInclude_wildcard (SessionUser.propertyTypes user))
      as HT.
    pose proof (ResourceType_eqb_eq resource BUILDING) as HB.
    assert (HL : (0 <? Z.of_nat (length (SessionUser.assignedBuildings user)))
                 = false ↔ SessionUser.assignedBuildings user = []).
    { destruct (SessionUser.assignedBuildings user); [done|].
      split; [|done]. intros Hlen.
      assert ((0 <? Z.of_nat (length (s :: l))) = true)
        by by apply length_pos_nonempty.
      congruence. }
    destruct (regionsInclude _ _), (propertyTypesInclude _ _),
      (0 <? _), (ResourceType_eqb resource BUILDING); simpl;
      (split; [try discriminate; intros _ | ]).
    all: try (right; right; split; [by apply HR|]; split; [by apply HT|]).
    all: try (left; by apply HL).
    all: try (right; intros ?%HB; discriminate).
    all: intros [? | [? | (?%HR & ?%HT & [?%HL | Hne])]];
      try done; try discriminate.
    exfalso. apply Hne. by apply HB.
Qed.

(* ------------------------------------------------------------------------- *)
(** ** More on cache keys *)
(* ------------------------------------------------------------------------- *)

(** Two strings that agree after a colon-free head and a colon have the same
    head and the same tail. *)
Lemma append_colon_inj (a b x y : string) :
  containsChar ":" a = false →
  containsChar ":" b = false →
  a +:+ ":" +:+ x = b +:+ ":" +:+ y →
  a = b ∧ x = y.
Proof.
  revert b. induction a as [|c a IH]; intros [|d b] Ha Hb Heq.
  - rewrite !append_nil_l in Heq. by injection Heq.
  - rewrite append_nil_l, !append_cons in Heq. injection Heq as <- _.
    discriminate Hb.
  - rewrite append_nil_l, !append_cons in Heq. injection Heq as -> _.
    discriminate Ha.
  - rewrite !append_cons in Heq. injection Heq as <- Heq.
    cbn [containsChar] in Ha, Hb.
    destruct (Ascii.eqb c ":"); [discriminate|].
    destruct (IH b Ha Hb Heq) as [-> ->]. done.
Qed.

Lemma ResourceType_str_no_colon (r : ResourceType) :
  containsChar ":" (ResourceType_str r) = false.
Proof. by destruct r. Qed.

Lemma ActionType_str_no_colon (a : ActionType) :
  containsChar ":" (ActionType_str a) = false.
Proof. by destruct a. Qed.

Lemma ResourceType_str_inj (a b : ResourceType) :
  ResourceType_str a = ResourceType_str b → a = b.
Proof. intros H. apply ResourceType_eqb_eq. by apply String.eqb_eq. Qed.

Lemma ActionType_str_inj (a b : ActionType) :
  ActionType_str a = ActionType_str b → a = b.
Proof. intros H. apply ActionType_eqb_eq. by apply String.eqb_eq. Qed.

(** X10. Cache keys separate requests: two contexts whose identity ids are
    free of colons have the same key only if they have the same identity id,
    resource kind and action, and the same resource id up to the
    identification of a missing id with the empty one. *)
Theorem getCacheKey_inj (ctx1 ctx2 : PermissionContext.t) :
  containsChar ":" (SessionUser.id (PermissionContext.user ctx1)) = false →
  containsChar ":" (SessionUser.id (PermissionContext.user ctx2)) = false →
  PermissionCache.getCacheKey ctx1 = PermissionCache.getCacheKey ctx2 →
  SessionUser.id (PermissionContext.user ctx1)
  = SessionUser.id (PermissionContext.user ctx2)
  ∧ PermissionContext.resource ctx1 = PermissionContext.resource ctx2
  ∧ PermissionContext.action ctx1 = PermissionContext.action ctx2
  ∧ PermissionCache.resourceIdOrEmpty (PermissionContext.resourceId ctx1)
    = PermissionCache.resourceIdOrEmpty (PermissionContext.resourceId ctx2).
Proof.
  unfold PermissionCache.getCacheKey. intros H1 H2 Hkey.
  apply append_colon_inj in Hkey as [Hid Hkey]; [|done..].
  apply append_colon_inj in Hkey as [Hres Hkey];
    [|apply ResourceType_str_no_colon..].
  apply append_colon_inj in Hkey as [Hact Hkey];
    [|apply ActionType_str_no_colon..].
  repeat split; [done | by apply ResourceType_str_inj
                | by apply ActionType_str_inj | done].
Qed.

Lemma getCacheKey_inj_witness :
  PermissionContext.resource demotedRequest
  = PermissionContext.resource assignedBuildingRequest.
Proof.
  apply (getCacheKey_inj demotedRequest assignedBuildingRequest);
    reflexivity.
Defined.

(* ------------------------------------------------------------------------- *)
(** ** More on the cache operations *)
(* ------------------------------------------------------------------------- *)

(** X11. [set] and [get] touch one key only: the entries under every other
    key are the same before and after, and [get] never adds an entry. *)
Theorem cache_ops_frame (cache : Cache) (ctx : PermissionContext.t)
    (now : Z) (d : bool) (k : string) :
  k ≠ PermissionCache.getCacheKey ctx →
  PermissionCache.set now ctx d cache !! k = cache !! k
  ∧ (PermissionCache.get now ctx cache).2 !! k = cache !! k
  ∧ (PermissionCache.get now ctx cache).2 ⊆ cache.
Proof.
  intros Hk. unfold PermissionCache.set, PermissionCache.get.
  split; [by rewrite lookup_insert_ne|].
  destruct (cache !! PermissionCache.getCacheKey ctx) as [e|]; [|done].
  destruct (_ >? _); [|done]. simpl. split.
  - by rewrite lookup_delete_ne.
  - apply delete_subseteq.
Qed.

Lemma cache_ops_frame_witness :
  PermissionCache.set 7 emptyIdRequest false
    (PermissionCache.set 0 assignedBuildingRequest true ∅)
    !! PermissionCache.getCacheKey assignedBuildingRequest
  = Some (CacheEntry.mk true 0).
Proof.
  pose proof (cache_ops_frame
                (PermissionCache.set 0 assignedBuildingRequest true ∅)
                emptyIdRequest 7 false
                (PermissionCache.getCacheKey assignedBuildingRequest))
    as Hframe.
  destruct Hframe as [Hset _]; [discriminate|].
  rewrite Hset. apply lookup_insert_eq.
Defined.

(** X12. After any call of [checkPermissionWithCache] the returned decision
    is in the cache under the context's key, and as long as that entry is
    no older than the TTL every further call with that key returns the same
    decision and leaves the cache as it is. *)
Theorem checkPermissionWithCache_caches (cache : Cache)
    (ctx : PermissionContext.t) (nowGet nowSet : Z) :
  ∃ e,
    (checkPermissionWithCache nowGet nowSet ctx cache).2
      !! PermissionCache.getCacheKey ctx = Some e
    ∧ CacheEntry.result e = (checkPermissionWithCache nowGet nowSet ctx cache).1
    ∧ ∀ ctx' nowGet' nowSet',
        PermissionCache.getCacheKey ctx' = PermissionCache.getCacheKey ctx →
        nowGet' - CacheEntry.timestamp e ≤ PermissionCache.TTL →
        checkPermissionWithCache nowGet' nowSet' ctx'
          (checkPermissionWithCache nowGet nowSet ctx cache).2
        = ((checkPermissionWithCache nowGet nowSet ctx cache).1,
           (checkPermissionWithCache nowGet nowSet ctx cache).2).
Proof.
  assert (Hhit : ∀ (c : Cache) e ctx' nowGet' nowSet',
    c !! PermissionCache.getCacheKey ctx = Some e →
    PermissionCache.getCacheKey ctx' = PermissionCache.getCacheKey ctx →
    nowGet' - CacheEntry.timestamp e ≤ PermissionCache.TTL →
    checkPermissionWithCache nowGet' nowSet' ctx' c = (CacheEntry.result e, c)).
  { intros c e ctx' nowGet' nowSet' He Hkey Hage.
    unfold checkPermissionWithCache, PermissionCache.get.
    rewrite Hkey, He.
    assert ((nowGet' - CacheEntry.timestamp e >? PermissionCache.TTL) = false)
      as -> by (rewrite Z.gtb_ltb; by apply Z.ltb_ge).
    done. }
  destruct (checkPermissionWithCache nowGet nowSet ctx cache) as [r c1] eqn:Hcall.
  assert (Hentry : ∃ e, c1 !! PermissionCache.getCacheKey ctx = Some e
                        ∧ CacheEntry.result e = r).
  { unfold checkPermissionWithCache, PermissionCache.get in Hcall.
    destruct (cache !! PermissionCache.getCacheKey ctx) as [e|] eqn:He.
    - destruct (nowGet - CacheEntry.timestamp e >? PermissionCache.TTL).
      + injection Hcall as <- <-.
        exists (CacheEntry.mk (checkPermission ctx) nowSet).
        unfold PermissionCache.set. by rewrite lookup_insert_eq.
      + injection Hcall as <- <-. by exists e.
    - injection Hcall as <- <-.
      exists (CacheEntry.mk (checkPermission ctx) nowSet).
      unfold PermissionCache.set. by rewrite lookup_insert_eq. }
  destruct Hentry as (e & He & Hr). exists e. cbn [fst snd].
  split; [done|]. split; [done|].
  intros ctx' nowGet' nowSet' Hkey Hfresh.
  by rewrite (Hhit c1 e ctx' nowGet' nowSet' He Hkey Hfresh), Hr.
Qed.

(** X13. Invalidation only removes entries, invalidating twice is
    invalidating once, and invalidations of two identities commute. *)
Theorem invalidateUser_algebra (cache : Cache) (id1 id2 : string) :
  PermissionCache.invalidateUser id1 cache ⊆ cache
  ∧ PermissionCache.invalidateUser id1 (PermissionCache.invalidateUser id1 cache)
    = PermissionCache.invalidateUser id1 cache
  ∧ PermissionCache.invalidateUser id1 (PermissionCache.invalidateUser id2 cache)
    = PermissionCache.invalidateUser id2 (PermissionCache.invalidateUser id1 cache).
Proof.
  split; [|split].
  - apply map_subseteq_spec. intros k e.
    rewrite lookup_invalidateUser. by destruct (startsWith _ _).
  - apply map_eq. intros k. rewrite !lookup_invalidateUser.
    by destruct (startsWith _ _).
  - apply map_eq. intros k. rewrite !lookup_invalidateUser.
    by destruct (startsWith k (id1 +:+ ":")), (startsWith k (id2 +:+ ":")).
Qed.

(** X14. Invalidation reaches past the named identity when ids contain
    colons: invalidating [id1] also removes every entry of an identity whose
    id is [id1], a colon, and anything after it. *)
Theorem invalidateUser_overreach (cache : Cache) (id1 suffix : string)
    (ctx : PermissionContext.t) :
  SessionUser.id (PermissionContext.user ctx) = id1 +:+ ":" +:+ suffix →
  PermissionCache.invalidateUser id1 cache !! PermissionCache.getCacheKey ctx
  = None.
Proof.
  intros Hid. rewrite lookup_invalidateUser.
  unfold startsWith, PermissionCache.getCacheKey. rewrite Hid.
  assert (Hassoc : ∀ a b c : string, (a +:+ b) +:+ c = a +:+ (b +:+ c)).
  { intros a b c. induction a as [|x a IH]; [done|].
    by rewrite !append_cons, IH. }
  by rewrite !Hassoc, prefix_app_same, (prefix_app_r ":").
Qed.

Lemma invalidateUser_overreach_witness :
  PermissionCache.invalidateUser "team"
    (PermissionCache.set 0
       (requestContext
          (SessionUser.mk "team:alice" "alice@example.com" "broker"
             [ALL_REGIONS] [ALL_TYPES] [] false 0)
          BUILDING READ None) true ∅)
    !! PermissionCache.getCacheKey
         (requestContext
            (SessionUser.mk "team:alice" "alice@example.com" "broker"
               [ALL_REGIONS] [ALL_TYPES] [] false 0)
            BUILDING READ None)
  = None.
Proof.
  by apply (invalidateUser_overreach _ "team" "alice"
              (requestContext
                 (SessionUser.mk "team:alice" "alice@example.com" "broker"
                    [ALL_REGIONS] [ALL_TYPES] [] false 0)
                 BUILDING READ None)).
Defined.

(* ------------------------------------------------------------------------- *)
(** ** The permission middleware *)
(* ------------------------------------------------------------------------- *)

(** The context [requirePermission] evaluates for a request and an
    identity. *)
Lemma requirePermission_authenticated (resource : ResourceType)
    (action : ActionType) (now : Z) (req : Request.t) (user : SessionUser.t)
    (tr : list Effect) :
  Request.user req = Some user →
  requirePermission resource action now req tr
  = if checkPermission
         (requestContext user resource action (extractResourceId req))
    then (Next, tr)
    else (Json 403
            [("error", "Insufficient permissions");
             ("required",
              ActionType_str action +:+ " permission on "
              +:+ ResourceType_str resource);
             ("userRole", SessionUser.role user)],
          (logPermissionDenied now
             (requestContext user resource action (extractResourceId req))
             tr).2).
Proof.
  intros Huser. unfold requirePermission. rewrite Huser.
  fold (requestContext user resource action (extractResourceId req)).
  destruct (checkPermission _); [done|]. simpl. unfold bind.
  by destruct (logPermissionDenied _ _ _) as [[] tr'].
Qed.

(** [logPermissionDenied] appends one denial record, then at most the
    escalation. *)
Lemma logPermissionDenied_trace (now : Z) (ctx : PermissionContext.t)
    (tr : list Effect) :
  ∃ log rest,
    (logPermissionDenied now ctx tr).2
    = tr ++ ConsoleWarn "Permission denied:" log :: rest
    ∧ AuditLog.granted log = false
    ∧ AuditLog.userId log = SessionUser.id (PermissionContext.user ctx)
    ∧ (rest = []
       ∨ rest = [ConsoleError "SECURITY ALERT: Suspicious activity detected"
                   ctx]).
Proof.
  unfold logPermissionDenied, isSupiciousActivity, alertSecurityTeam, bind,
    ret, emit. simpl.
  destruct (ResourceType_eqb _ ADMIN && negb _); simpl;
    eexists _, _; (split; [by rewrite <- ?app_assoc|]); auto.
Qed.

(** X15. [requirePermission] answers in one of three ways and records
    exactly the denials.  Without identity it answers 401; with an identity
    it calls [next()] exactly when [checkPermission] grants the context built
    from the request, and answers 403 otherwise.  The trace of effects is
    unchanged unless the answer is 403, in which case one denial record
    ([granted] false, for that identity) is appended, followed by nothing or
    by the escalation. *)
Theorem requirePermission_audit (resource : ResourceType) (action : ActionType)
    (now : Z) (req : Request.t) (tr : list Effect) :
  ((requirePermission resource action now req tr).1
   = Json 401 [("error", "Authentication required")]
   ↔ Request.user req = None)
  ∧ ((requirePermission resource action now req tr).1 = Next
     ↔ ∃ user, Request.user req = Some user
               ∧ checkPermission
                   (requestContext user resource action (extractResourceId req))
                 = true)
  ∧ (∀ user, Request.user req = Some user →
       checkPermission
         (requestContext user resource action (extractResourceId req)) = false →
       (requirePermission resource action now req tr).1
       = Json 403
           [("error", "Insufficient permissions");
            ("required",
             ActionType_str action +:+ " permission on "
             +:+ ResourceType_str resource);
            ("userRole", SessionUser.role user)]
       ∧ ∃ log rest,
           (requirePermission resource action now req tr).2
           = tr ++ ConsoleWarn "Permission denied:" log :: rest
           ∧ AuditLog.granted log = false
           ∧ AuditLog.userId log = SessionUser.id user
           ∧ (rest = []
              ∨ rest = [ConsoleError
                          "SECURITY ALERT: Suspicious activity detected"
                          (requestContext user resource action
                             (extractResourceId req))]))
  ∧ ((∀ body, (requirePermission resource action now req tr).1 ≠ Json 403 body) →
     (requirePermission resource action now req tr).2 = tr).
Proof.
  destruct (Request.user req) as [user|] eqn:Huser.
  - rewrite (requirePermission_authenticated _ _ _ _ user tr Huser).
    destruct (checkPermission _) eqn:Hcheck; cbn [fst snd].
    + split; [by split|]. split; [split; [eauto | done]|].
      split; [|done]. intros u [= <-]. congruence.
    + split; [by split|].
      split; [split; [done | intros (u & [= <-] & ?); congruence]|].
      split.
      * intros u [= <-] _. split; [done|].
        destruct (logPermissionDenied_trace now
                    (requestContext user resource action (extractResourceId req))
                    tr) as (log & rest & Htr & Hg & Hid & Hrest).
        exists log, rest. done.
      * intros Hno. exfalso. by eapply Hno.
  - unfold requirePermission. rewrite Huser. cbn [ret fst snd].
    split; [by split|]. split; [split; [done | by intros (u & ? & _)]|].
    split; [by intros u|done].
Qed.

(** X16. The administrative resource through the middleware: a request on
    [ADMIN] by an identity whose role is not admin is always answered 403
    and raises exactly one escalation, whatever the action, the scopes and
    the request. *)
Theorem requirePermission_admin_resource (action : ActionType) (now : Z)
    (req : Request.t) (user : SessionUser.t) (tr : list Effect) :
  Request.user req = Some user →
  SessionUser.role user ≠ "admin" →
  (requirePermission ADMIN action now req tr).1
  = Json 403
      [("error", "Insufficient permissions");
       ("required", ActionType_str action +:+ " permission on admin");
       ("userRole", SessionUser.role user)]
  ∧ escalations (requirePermission ADMIN action now req tr).2
    = S (escalations tr).
Proof.
  intros Huser Hna.
  rewrite (requirePermission_authenticated _ _ _ _ user tr Huser).
  assert (Hdeny : checkPermission
                    (requestContext user ADMIN action (extractResourceId req))
                  = false).
  { rewrite checkPermission_table. cbv zeta.
    cbn [requestContext PermissionContext.user PermissionContext.resource].
    apply String.eqb_neq in Hna. rewrite Hna.
    by repeat destruct (String.eqb _ _). }
  rewrite Hdeny. cbn [fst snd]. split; [done|].
  rewrite logPermissionDenied_escalations.
  cbn [requestContext PermissionContext.user PermissionContext.resource].
  apply String.eqb_neq in Hna. rewrite Hna. simpl. lia.
Qed.

Lemma requirePermission_admin_resource_witness :
  escalations
    (requirePermission ADMIN READ 0
       (Request.mk (Some brokerUser) None None None None None) []).2
  = 1%nat.
Proof.
  apply (requirePermission_admin_resource READ 0
           (Request.mk (Some brokerUser) None None None None None)
           brokerUser []); [reflexivity | discriminate].
Defined.

(** X17. A path id wins over the body: when [req.params.id] is non-empty,
    [requirePermission] behaves the same whatever [req.params.buildingId]
    and the body's [buildingId] are. *)
Theorem requirePermission_path_id_wins (resource : ResourceType)
    (action : ActionType) (now : Z) (req req' : Request.t) :
  truthyId (Request.paramsId req) = true →
  Request.user req' = Request.user req →
  Request.paramsId req' = Request.paramsId req →
  requirePermission resource action now req'
  = requirePermission resource action now req.
Proof.
  intros Hid Huser Hpid.
  assert (Hex : extractResourceId req' = extractResourceId req).
  { unfold extractResourceId, orElse. by rewrite Hpid, !Hid. }
  unfold requirePermission. by rewrite Huser, Hex.
Qed.

Lemma requirePermission_path_id_wins_witness :
  requirePermission BUILDING READ 0
    (Request.mk (Some brokerUser) (Some "building_123") (Some "building_999")
       (Some "building_456") None None)
  = requirePermission BUILDING READ 0
      (Request.mk (Some brokerUser) (Some "building_123") None None None None).
Proof.
  by apply (requirePermission_path_id_wins BUILDING READ 0
              (Request.mk (Some brokerUser) (Some "building_123") None None
                 None None)
              (Request.mk (Some brokerUser) (Some "building_123")
                 (Some "building_999") (Some "building_456") None None)).
Defined.

Lemma getResourceMetadata_empty (resource : ResourceType)
    (resourceId : option string) :
  resource ≠ BUILDING ∨ truthyId resourceId = false →
  getResourceMetadata resource resourceId = ∅.
Proof.
  unfold getResourceMetadata. intros [Hres | ->].
  - destruct (ResourceType_eqb resource BUILDING) eqn:Heq; [|done].
    by apply ResourceType_eqb_eq in Heq.
  - by rewrite andb_false_r.
Qed.

(** X18. The metadata lookup of the middleware knows buildings named by a
    non-empty id only.  For every other request on a building or a suite
    (every suite request, and building requests without id) the metadata is
    empty, so [requirePermission] lets an identity whose role is not admin
    through only if it is universal or holds both wildcards. *)
Theorem requirePermission_needs_metadata (resource : ResourceType)
    (action : ActionType) (now : Z) (req : Request.t) (user : SessionUser.t)
    (tr : list Effect) :
  Request.user req = Some user →
  SessionUser.role user ≠ "admin" →
  resource = SUITE
  ∨ (resource = BUILDING ∧ truthyId (extractResourceId req) = false) →
  (requirePermission resource action now req tr).1 = Next →
  (SessionUser.universalAccess user = true
   ∨ ALL_REGIONS ∈ SessionUser.regions user)
  ∧ (SessionUser.universalAccess user = true
     ∨ ALL_TYPES ∈ SessionUser.propertyTypes user).
Proof.
  intros Huser Hna Hkind.
  rewrite (requirePermission_authenticated _ _ _ _ user tr Huser).
  destruct (checkPermission _) eqn:Hcheck; [intros _ | discriminate].
  apply checkPermission_granted_scoped in Hcheck as [Hr Ht];
    [| done | destruct Hkind as [-> | [-> _]]; by (left + right)].
  rewrite hasRegionAccess_unfold in Hr.
  rewrite hasPropertyTypeAccess_unfold in Ht.
  cbn [requestContext PermissionContext.user PermissionContext.metadata] in Hr, Ht.
  rewrite getResourceMetadata_empty in Hr, Ht
    by (destruct Hkind as [-> | [_ ->]]; [by left | by right]).
  cbn [metadataProp] in Hr, Ht. rewrite lookup_empty in Hr, Ht.
  cbn [default option_rect from_option] in Hr, Ht.
  rewrite !orb_true_iff in Hr, Ht.
  rewrite regionsInclude_wildcard in Hr.
  rewrite propertyTypesInclude_wildcard in Ht.
  split.
  - destruct Hr as [Hr | Hr]; [done|].
    apply regionsInclude_spec in Hr as (? & _ & [=]).
  - destruct Ht as [Ht | Ht]; [done|].
    apply propertyTypesInclude_spec in Ht as (? & _ & [=]).
Qed.

Lemma requirePermission_needs_metadata_witness :
  (SessionUser.universalAccess wildcardBroker = true
   ∨ ALL_REGIONS ∈ SessionUser.regions wildcardBroker)
  ∧ (SessionUser.universalAccess wildcardBroker = true
     ∨ ALL_TYPES ∈ SessionUser.propertyTypes wildcardBroker).
Proof.
  apply (requirePermission_needs_metadata SUITE READ 0
           (Request.mk (Some wildcardBroker) (Some "building_123") None None
              None None)
           wildcardBroker []);
    [reflexivity | discriminate | by left | vm_compute; reflexivity].
Defined.

(* ------------------------------------------------------------------------- *)
(** ** Sessions *)
(* ------------------------------------------------------------------------- *)

(** X19. [ensurePermissionsLoaded] lets a request through exactly when its
    session names a non-empty user id; otherwise it answers 401 and leaves
    the request as it is.  When it lets the request through, [req.user] is
    set to the permissions stored in the session, and (the clock not running
    backwards between the expiry test and the reload) these are not expired
    at the time of the test.  Permissions that are present and not expired
    are kept as they are, without a reload. *)
Theorem ensurePermissionsLoaded_spec (nowCheck nowLoad : Z) (req : Request.t) :
  ((ensurePermissionsLoaded nowCheck nowLoad req).1 = Next
   ↔ ∃ session uid, Request.session req = Some session
                    ∧ Session.userId session = Some uid ∧ uid ≠ "")
  ∧ ((ensurePermissionsLoaded nowCheck nowLoad req).1 ≠ Next →
     ensurePermissionsLoaded nowCheck nowLoad req
     = (Json 401 [("error", "Authentication required")], req))
  ∧ (nowCheck ≤ nowLoad →
     (ensurePermissionsLoaded nowCheck nowLoad req).1 = Next →
     ∃ session' permissions,
       Request.user (ensurePermissionsLoaded nowCheck nowLoad req).2
       = Some permissions
       ∧ Request.session (ensurePermissionsLoaded nowCheck nowLoad req).2
         = Some session'
       ∧ Session.permissions session' = Some permissions
       ∧ isPermissionsExpired nowCheck permissions = false)
  ∧ (∀ session permissions,
       Request.session req = Some session →
       truthyId (Session.userId session) = true →
       Session.permissions session = Some permissions →
       isPermissionsExpired nowCheck permissions = false →
       Request.user (ensurePermissionsLoaded nowCheck nowLoad req).2
       = Some permissions
       ∧ Request.session (ensurePermissionsLoaded nowCheck nowLoad req).2
         = Some session).
Proof.
  unfold ensurePermissionsLoaded.
  destruct (Request.session req) as [session|] eqn:Hs.
  2:{ cbn [fst snd]. split; [split; [done | by intros (? & ? & ? & _)]|].
      split; [done|]. split; [done|]. by intros ? ? ?. }
  destruct (truthyId (Session.userId session)) eqn:Hid; cbn [negb].
  2:{ cbn [fst snd]. split.
      { split; [done|]. intros (s' & uid & [= <-] & Huid & Hne).
        assert (truthyId (Session.userId session) = true); [|congruence].
        apply truthyId_spec. eauto. }
      split; [done|]. split; [done|].
      intros s' p [= <-]. congruence. }
  apply truthyId_spec in Hid as (uid & Huid & Hne).
  destruct (Session.permissions session) as [p|] eqn:Hp.
  - destruct (isPermissionsExpired nowCheck p) eqn:Hexp; cbn [fst snd].
    + split; [split; [eauto | done]|]. split; [done|]. split.
      * intros Hclock _. eexists _, _. cbn. repeat split.
        unfold isPermissionsExpired, loadUserPermissions, EXPIRY_TIME.
        cbn. rewrite Z.gtb_ltb. apply Z.ltb_ge. lia.
      * intros s' p' [= <-] _ Hp' Hexp'. rewrite Hp in Hp'.
        injection Hp' as <-. congruence.
    + split; [split; [eauto | done]|]. split; [done|]. split.
      * intros _ _. by exists session, p.
      * intros s' p' [= <-] _ Hp' _. rewrite Hp in Hp'.
        by injection Hp' as <-.
  - cbn [fst snd]. split; [split; [eauto | done]|]. split; [done|]. split.
    + intros Hclock _. eexists _, _. cbn. repeat split.
      unfold isPermissionsExpired, loadUserPermissions, EXPIRY_TIME.
      cbn. rewrite Z.gtb_ltb. apply Z.ltb_ge. lia.
    + intros s' p' [= <-] _ Hp'. congruence.
Qed.

(* ------------------------------------------------------------------------- *)
(** ** Helpers of the stacking-plan view *)
(* ------------------------------------------------------------------------- *)





